(** * Focalboard fork: admin routes, local permissions and user notifications

    A shallow embedding of the Go server code that implements
    - [server/services/permissions/localpermissions] (first user is admin),
    - [server/services/store/sqlstore/user_notifications.go] (the
      [user_notifications] table and its statements),
    - [server/app] notification pass-throughs and
      [CreateAndBroadcastNotification],
    - [server/api] admin handlers and notification handlers,
    followed by the properties the specification states about them.

    Conventions.  Go [string] is [string]; [int64] timestamps are [Z] (they
    are only compared, never added).  A Go [(T, error)] result is
    [Result T]; a bare [error] is [option Error].  Mutable receivers and the
    database are threaded explicitly.  Logger calls are dropped: they never
    feed back into control flow. *)

From Stdlib Require Import String Ascii List ZArith Bool Lia.
Import ListNotations.
Local Open Scope string_scope.
Local Open Scope Z_scope.

(* ================================================================== *)
(** ** Errors and results *)

(** Errors as the handlers distinguish them: the two typed errors built by
    [model.NewErrUnauthorized] and [model.NewErrBadRequest], and every other
    Go [error] value (driver, I/O, JSON), kept with its message. *)
Inductive Error : Type :=
| ErrUnauthorized (msg : string)
| ErrBadRequest (msg : string)
| ErrOther (msg : string).

Inductive Result (A : Type) : Type :=
| Ok (a : A)
| Err (e : Error).
Arguments Ok {A} a.
Arguments Err {A} e.

(* ================================================================== *)
(** ** Go standard library: strings.Contains *)

Module strings.

(** [strings.Index(s, substr)]: position of the first occurrence of
    [substr] in [s], or [-1]. *)
Definition Index (s substr : string) : Z :=
  match String.index 0 substr s with
  | Some i => Z.of_nat i
  | None => -1
  end.

(** [strings.Contains(s, substr)] is [Index(s, substr) >= 0]. *)
Definition Contains (s substr : string) : bool :=
  0 <=? Index s substr.

End strings.

(* ================================================================== *)
(** ** package model *)

Module model.

(** Modelled from the spec: [model.User] is declared outside the files at
    hand; the specification lists "username, email, password hash,
    timestamps", and the code reads [ID] and [CreateAt]. *)
Record User : Type := mkUser {
  ID : string;
  Username : string;
  Email : string;
  Password : string;
  CreateAt : Z;
  UpdateAt : Z
}.

(** [mmModel.Permission]; only its [Id] is consulted. *)
Record Permission : Type := mkPermission { Id : string }.

(** Modelled from the spec: the permission constants are declared outside
    the files at hand; the specification names the capabilities "manage
    system" and "view board". *)
Definition PermissionManageSystem : Permission := mkPermission "manage_system".
Definition PermissionViewBoard : Permission := mkPermission "view_board".

(** [model.Session]; the handlers read [UserID] only. *)
Record Session : Type := mkSession { UserID : string }.

(** [model.UserNotification], field for field. *)
Record UserNotification : Type := mkUserNotification {
  NID : string;            (* ID *)
  TargetUserID : string;
  ActorUserID : string;
  ActorName : string;
  NType : string;          (* Type *)
  CardID : string;
  CardTitle : string;
  BoardID : string;
  Read : bool;
  NCreateAt : Z;           (* CreateAt *)
  NUpdateAt : Z            (* UpdateAt *)
}.

(** [NewUserNotification]: the constructor of the model package; [id] is
    the value drawn from [utils.NewID] and [now] the clock reading. *)
Definition NewUserNotification (id : string) (now : Z)
    (targetUserID actorUserID actorName notifType cardID cardTitle boardID : string)
    : UserNotification :=
  {| NID := id;
     TargetUserID := targetUserID;
     ActorUserID := actorUserID;
     ActorName := actorName;
     NType := notifType;
     CardID := cardID;
     CardTitle := cardTitle;
     BoardID := boardID;
     Read := false;
     NCreateAt := now;
     NUpdateAt := now |}.

End model.
Import model.

(* ================================================================== *)
(** ** package localpermissions *)

Module localpermissions.

(** The mutable part of [Service]: the cached admin. *)
Record Service : Type := mkService {
  firstUserID : string;
  firstUserDone : bool
}.

Definition New : Service :=
  {| firstUserID := ""; firstUserDone := false |}.

(** The [for _, u := range users] loop, with [oldestUser] as accumulator
    ([None] is the nil pointer). *)
Fixpoint oldestLoop (users : list User) (oldestUser : option User) : option User :=
  match users with
  | [] => oldestUser
  | u :: rest =>
      oldestLoop rest
        (match oldestUser with
         | None => Some u
         | Some o => if CreateAt u <? CreateAt o then Some u else Some o
         end)
  end.

(** [HasPermissionTo]; [getAllUsers] is what [s.store.GetAllUsers()]
    returns at the time of the call.  The updated receiver is returned
    next to the answer. *)
Definition HasPermissionTo (s : Service) (getAllUsers : Result (list User))
    (userID : string) (permission : Permission) : bool * Service :=
  if String.eqb (Id permission) (Id PermissionManageSystem) then
    let s' :=
      if negb (firstUserDone s) then
        let s1 :=
          match getAllUsers with
          | Ok users =>
              if (0 <? Z.of_nat (length users)) then
                match oldestLoop users None with
                | Some oldestUser =>
                    {| firstUserID := ID oldestUser;
                       firstUserDone := firstUserDone s |}
                | None => s
                end
              else s
          | Err _ => s
          end in
        {| firstUserID := firstUserID s1; firstUserDone := true |}
      else s in
    (String.eqb userID (firstUserID s'), s')
  else (false, s).

(** Service states that arise from [New] by calls of [HasPermissionTo]. *)
Inductive reachable : Service -> Prop :=
| reachable_New : reachable New
| reachable_call s users userID permission :
    reachable s ->
    reachable (snd (HasPermissionTo s users userID permission)).

End localpermissions.

(* ================================================================== *)
(** ** package sqlstore: the user_notifications table *)

Module sqlstore.

(** The table [user_notifications]: its rows, in insertion order.  The
    migration declares [PRIMARY KEY (id)]. *)
Definition Table : Type := list UserNotification.

(** What one store call obtains from outside the program: the clock
    ([utils.GetMillis]), the identifier source ([utils.NewID]), and what
    the driver reports for the statement ([Exec] failing, and
    [RowsAffected] failing). *)
Record Runtime : Type := mkRuntime {
  GetMillis : Z;
  NewID : string;
  execErr : option Error;
  rowsAffectedErr : option Error
}.

(** *** Statements *)

(** [INSERT INTO user_notifications ... VALUES row]. *)
Definition sqlInsert (row : UserNotification) (t : Table) : Result (Table * Z) :=
  if existsb (fun r => String.eqb (NID r) (NID row)) t
  then Err (ErrOther "duplicate key value violates unique constraint")
  else Ok ((t ++ [row])%list, 1).

(** [UPDATE user_notifications SET ... WHERE ...]. *)
Definition sqlUpdate (set : UserNotification -> UserNotification)
    (where_ : UserNotification -> bool) (t : Table) : Result (Table * Z) :=
  Ok (map (fun r => if where_ r then set r else r) t,
      Z.of_nat (length (filter where_ t))).

(** [DELETE FROM user_notifications WHERE ...]. *)
Definition sqlDelete (where_ : UserNotification -> bool) (t : Table)
    : Result (Table * Z) :=
  Ok (filter (fun r => negb (where_ r)) t,
      Z.of_nat (length (filter where_ t))).

(** [SELECT COUNT( * ) FROM user_notifications WHERE ...]. *)
Definition sqlCount (where_ : UserNotification -> bool) (t : Table) : Z :=
  Z.of_nat (length (filter where_ t)).

(** [query.Exec()]: a driver failure leaves the table alone. *)
Definition Exec (rt : Runtime) (stmt : Table -> Result (Table * Z)) (t : Table)
    : Result Z * Table :=
  match execErr rt with
  | Some e => (Err e, t)
  | None =>
      match stmt t with
      | Ok (t', n) => (Ok n, t')
      | Err e => (Err e, t)
      end
  end.

(** *** The [SET] clauses and [sq.Eq] predicates of the file *)

Definition setReadAt (now : Z) (r : UserNotification) : UserNotification :=
  {| NID := NID r; TargetUserID := TargetUserID r; ActorUserID := ActorUserID r;
     ActorName := ActorName r; NType := NType r; CardID := CardID r;
     CardTitle := CardTitle r; BoardID := BoardID r;
     Read := true; NCreateAt := NCreateAt r; NUpdateAt := now |}.

(** [sq.Eq{"id": notificationID, "target_user_id": userID}] *)
Definition eqIdTarget (notificationID userID : string) (r : UserNotification) : bool :=
  String.eqb (NID r) notificationID && String.eqb (TargetUserID r) userID.

(** [sq.Eq{"target_user_id": userID, "is_read": false}] *)
Definition eqTargetUnread (userID : string) (r : UserNotification) : bool :=
  String.eqb (TargetUserID r) userID && Bool.eqb (Read r) false.

(** *** Store functions *)

(** [createUserNotification].  The Go code overwrites [ID], [CreateAt] and
    [UpdateAt] of the object it was handed and inserts all eleven fields;
    the returned value is that same object. *)
Definition createUserNotification (rt : Runtime) (notification : UserNotification)
    (t : Table) : Result UserNotification * Table :=
  let now := GetMillis rt in
  let notification :=
    {| NID := NewID rt;
       TargetUserID := TargetUserID notification;
       ActorUserID := ActorUserID notification;
       ActorName := ActorName notification;
       NType := NType notification;
       CardID := CardID notification;
       CardTitle := CardTitle notification;
       BoardID := BoardID notification;
       Read := Read notification;
       NCreateAt := now;
       NUpdateAt := now |} in
  match Exec rt (sqlInsert notification) t with
  | (Err e, t') => (Err e, t')
  | (Ok _, t') => (Ok notification, t')
  end.

Definition getUnreadNotificationCount (rt : Runtime) (userID : string) (t : Table)
    : Result Z :=
  match execErr rt with
  | Some e => Err e
  | None => Ok (sqlCount (eqTargetUnread userID) t)
  end.

(** [markNotificationAsRead]: a zero row count only logs a warning. *)
Definition markNotificationAsRead (rt : Runtime) (notificationID userID : string)
    (t : Table) : option Error * Table :=
  let now := GetMillis rt in
  match Exec rt (sqlUpdate (setReadAt now) (eqIdTarget notificationID userID)) t with
  | (Err e, t') => (Some e, t')
  | (Ok count, t') =>
      match rowsAffectedErr rt with
      | Some e => (Some e, t')
      | None => (None, t')
      end
  end.

Definition markAllNotificationsAsRead (rt : Runtime) (userID : string) (t : Table)
    : option Error * Table :=
  let now := GetMillis rt in
  match Exec rt (sqlUpdate (setReadAt now) (eqTargetUnread userID)) t with
  | (Err e, t') => (Some e, t')
  | (Ok _, t') => (None, t')
  end.

Definition deleteUserNotification (rt : Runtime) (notificationID userID : string)
    (t : Table) : option Error * Table :=
  match Exec rt (sqlDelete (eqIdTarget notificationID userID)) t with
  | (Err e, t') => (Some e, t')
  | (Ok _, t') => (None, t')
  end.

End sqlstore.
Import sqlstore.

(* ================================================================== *)
(** ** package app *)

Module app.

(** The user functions of the app layer ([GetAllUsers], [GetUser],
    [UpdateUser], [UpdateUserPassword], [UpdateUserPasswordByID],
    [DeleteUser]) and the store method behind the permission service are
    declared outside the files at hand.  They are taken as an interface
    over the user table; every result below holds for each
    implementation. *)
Record UserFuncs : Type := mkUserFuncs {
  storeGetAllUsers : list User -> Result (list User);
  GetAllUsers : list User -> Result (list User);
  GetUser : string -> list User -> Result User;
  UpdateUser : User -> list User -> Result User * list User;
  UpdateUserPassword : string -> string -> list User -> option Error * list User;
  UpdateUserPasswordByID : string -> string -> list User -> option Error * list User;
  DeleteUser : string -> list User -> option Error * list User
}.

(** The WebSocket adapter, an interface as well.  The Go method returns
    nothing; whether the push reached a client ([bool]) stays inside the
    adapter. *)
Record WSAdapter (WS : Type) : Type := mkWSAdapter {
  BroadcastUserNotification : string -> UserNotification -> WS -> WS * bool
}.
Arguments BroadcastUserNotification {WS} _ _ _ _.

(** Ghost trace: the calls a request makes below the API layer, oldest
    first. *)
Inductive Call : Type :=
| CallGetAllUsers
| CallGetUser (userID : string)
| CallUpdateUser (user : User)
| CallUpdateUserPassword (username password : string)
| CallUpdateUserPasswordByID (userID password : string)
| CallDeleteUser (userID : string)
| CallCreateUserNotification (result : Result UserNotification)
| CallGetUnreadNotificationCount (userID : string)
| CallMarkNotificationAsRead (notificationID userID : string)
| CallMarkAllNotificationsAsRead (userID : string)
| CallDeleteUserNotification (notificationID userID : string)
| CallBroadcastUserNotification (userID : string) (notification : UserNotification).

(** What is reachable from the [App] receiver. *)
Record App (WS : Type) : Type := mkApp {
  users : list User;
  notifications : Table;
  ws : WS;
  calls : list Call
}.
Arguments mkApp {WS} _ _ _ _.
Arguments users {WS} _.
Arguments notifications {WS} _.
Arguments ws {WS} _.
Arguments calls {WS} _.

Section WithInterfaces.
Context {WS : Type} (uf : UserFuncs) (wsAdapter : WSAdapter WS).

Definition logCall (c : Call) (a : App WS) : App WS :=
  mkApp (users a) (notifications a) (ws a) (calls a ++ [c])%list.
Definition withUsers (us : list User) (a : App WS) : App WS :=
  mkApp us (notifications a) (ws a) (calls a).
Definition withNotifications (t : Table) (a : App WS) : App WS :=
  mkApp (users a) t (ws a) (calls a).
Definition withWS (w : WS) (a : App WS) : App WS :=
  mkApp (users a) (notifications a) w (calls a).

(** *** User functions: the interface, with the call recorded *)

Definition appGetAllUsers (a : App WS) : Result (list User) * App WS :=
  (GetAllUsers uf (users a), logCall CallGetAllUsers a).

Definition appGetUser (userID : string) (a : App WS) : Result User * App WS :=
  (GetUser uf userID (users a), logCall (CallGetUser userID) a).

Definition appUpdateUser (user : User) (a : App WS) : Result User * App WS :=
  let '(r, us) := UpdateUser uf user (users a) in
  (r, withUsers us (logCall (CallUpdateUser user) a)).

Definition appUpdateUserPassword (username password : string) (a : App WS)
    : option Error * App WS :=
  let '(e, us) := UpdateUserPassword uf username password (users a) in
  (e, withUsers us (logCall (CallUpdateUserPassword username password) a)).

Definition appUpdateUserPasswordByID (userID password : string) (a : App WS)
    : option Error * App WS :=
  let '(e, us) := UpdateUserPasswordByID uf userID password (users a) in
  (e, withUsers us (logCall (CallUpdateUserPasswordByID userID password) a)).

Definition appDeleteUser (userID : string) (a : App WS) : option Error * App WS :=
  let '(e, us) := DeleteUser uf userID (users a) in
  (e, withUsers us (logCall (CallDeleteUser userID) a)).

(** *** Notifications: [a.store.X] is [sqlstore.x] on the table *)

Definition CreateUserNotification (rt : Runtime) (notification : UserNotification)
    (a : App WS) : Result UserNotification * App WS :=
  let '(r, t) := createUserNotification rt notification (notifications a) in
  (r, withNotifications t (logCall (CallCreateUserNotification r) a)).

Definition GetUnreadNotificationCount (rt : Runtime) (userID : string) (a : App WS)
    : Result Z * App WS :=
  (getUnreadNotificationCount rt userID (notifications a),
   logCall (CallGetUnreadNotificationCount userID) a).

Definition MarkNotificationAsRead (rt : Runtime) (notificationID userID : string)
    (a : App WS) : option Error * App WS :=
  let '(e, t) := markNotificationAsRead rt notificationID userID (notifications a) in
  (e, withNotifications t (logCall (CallMarkNotificationAsRead notificationID userID) a)).

Definition MarkAllNotificationsAsRead (rt : Runtime) (userID : string) (a : App WS)
    : option Error * App WS :=
  let '(e, t) := markAllNotificationsAsRead rt userID (notifications a) in
  (e, withNotifications t (logCall (CallMarkAllNotificationsAsRead userID) a)).

Definition DeleteUserNotification (rt : Runtime) (notificationID userID : string)
    (a : App WS) : option Error * App WS :=
  let '(e, t) := deleteUserNotification rt notificationID userID (notifications a) in
  (e, withNotifications t (logCall (CallDeleteUserNotification notificationID userID) a)).

(** [a.wsAdapter.BroadcastUserNotification(userID, n)] as a statement:
    the adapter's state moves on, its outcome is dropped. *)
Definition broadcastUserNotification (userID : string) (n : UserNotification)
    (a : App WS) : App WS :=
  let '(w, _) := BroadcastUserNotification wsAdapter userID n (ws a) in
  withWS w (logCall (CallBroadcastUserNotification userID n) a).

(** [CreateAndBroadcastNotification].  The store writes [ID], [CreateAt]
    and [UpdateAt] into the object it was handed and returns it as
    [created]; [notification.TargetUserID], read after the store call, is
    a field the store leaves alone. *)
Definition CreateAndBroadcastNotification (rt : Runtime)
    (notification : UserNotification) (a : App WS)
    : Result UserNotification * App WS :=
  match CreateUserNotification rt notification a with
  | (Err e, a') => (Err e, a')
  | (Ok created, a') =>
      let a'' := broadcastUserNotification (TargetUserID notification) created a' in
      (Ok created, a'')
  end.

End WithInterfaces.

End app.

(* ================================================================== *)
(** ** package api *)

Module AdminSetPasswordData.
Record t : Type := mk { Password : string }.
End AdminSetPasswordData.

Module AdminUpdateUserData.
Record t : Type := mk { Username : string; Email : string; Password : string }.
End AdminUpdateUserData.

Module api.
Import app.

(** *** Requests and responses *)

(** The request body after [io.ReadAll] and [json.Unmarshal] into a value
    of type [B]: either step may fail, otherwise the decoded value. *)
Inductive Body (B : Type) : Type :=
| BodyReadError (e : Error)
| BodyUnmarshalError (e : Error)
| BodyValue (v : B).
Arguments BodyReadError {B} e.
Arguments BodyUnmarshalError {B} e.
Arguments BodyValue {B} v.

(** A request that passed [sessionRequired]: the session in its context,
    the path variables of [mux.Vars] (absent keys read as the empty
    string, as a Go map does) and the body. *)
Record Request (B : Type) : Type := mkRequest {
  session : Session;
  vars : string -> string;
  body : Body B
}.
Arguments mkRequest {B} _ _ _.
Arguments session {B} _.
Arguments vars {B} _.
Arguments body {B} _.

(** Modelled from the spec: [getUserID] is declared outside the files at
    hand; it yields the user of the caller's session. *)
Definition getUserID {B : Type} (r : Request B) : string := UserID (session r).

Inductive Payload : Type :=
| EmptyObject                         (* the literal "{}" *)
| UsersJSON (users : list User)
| UserJSON (user : User)
| NotificationJSON (n : UserNotification)
| CountJSON (count : Z).

(** What the handler wrote: [jsonStringResponse]/[jsonBytesResponse] with
    a status code, or [a.errorResponse] with the error it was given. *)
Inductive Response : Type :=
| JSONResponse (status : Z) (payload : Payload)
| ErrorResponse (e : Error).

Definition StatusOK : Z := 200.

(** *** Audit records *)

Inductive AuditLevel : Type := LevelAuth | LevelModify | LevelRead.

Record AuditRecord : Type := mkAuditRecord {
  level : AuditLevel;
  event : string;
  meta : list (string * string);
  success : bool
}.

(** *** The API receiver *)

Record API (WS : Type) : Type := mkAPI {
  app : App WS;
  permissions : localpermissions.Service;
  audit : list AuditRecord
}.
Arguments mkAPI {WS} _ _ _.
Arguments app {WS} _.
Arguments permissions {WS} _.
Arguments audit {WS} _.

(** *** Handler bodies: state, and an early [return] after a response *)

Definition H (WS A : Type) : Type := API WS -> (Response + A) * API WS.

Definition ret {WS A} (a : A) : H WS A := fun st => (inr a, st).

Definition bind {WS A B} (m : H WS A) (k : A -> H WS B) : H WS B :=
  fun st =>
    match m st with
    | (inl resp, st') => (inl resp, st')
    | (inr a, st') => k a st'
    end.

(** [a.errorResponse(w, r, err); return] *)
Definition errorResponse {WS A} (e : Error) : H WS A :=
  fun st => (inl (ErrorResponse e), st).

Definition runHandler {WS} (m : H WS Response) (st : API WS) : Response * API WS :=
  match m st with
  | (inl resp, st') => (resp, st')
  | (inr resp, st') => (resp, st')
  end.

Declare Scope handler_scope.
Delimit Scope handler_scope with handler.
Notation "x <- m ;; k" := (bind m (fun x => k))
  (at level 100, m at next level, right associativity) : handler_scope.
Notation "m ;;; k" := (bind m (fun _ => k))
  (at level 100, right associativity) : handler_scope.
Local Open Scope handler_scope.

Section Handlers.
Context {WS : Type} (uf : UserFuncs) (wsAdapter : WSAdapter WS).

(** Run an app-layer call on [a.app]. *)
Definition onApp {A} (f : App WS -> A * App WS) : H WS A :=
  fun st =>
    let '(x, a') := f (app st) in
    (inr x, mkAPI a' (permissions st) (audit st)).

(** [x, err := f(); if err != nil { a.errorResponse(w, r, err); return }] *)
Definition try {A} (m : H WS (Result A)) : H WS A :=
  r <- m ;;
  match r with
  | Ok x => ret x
  | Err e => errorResponse e
  end.

Definition tryErr (m : H WS (option Error)) : H WS unit :=
  r <- m ;;
  match r with
  | None => ret tt
  | Some e => errorResponse e
  end.

(** [io.ReadAll(r.Body)] then [json.Unmarshal], each followed by the
    error return. *)
Definition readBody {B} (r : Request B) : H WS B :=
  match body r with
  | BodyReadError e => errorResponse e
  | BodyUnmarshalError e => errorResponse e
  | BodyValue v => ret v
  end.

(** [a.permissions.HasPermissionTo(userID, permission)]: the service
    consults the user store and may fill its cache. *)
Definition hasPermissionTo (userID : string) (permission : Permission) : H WS bool :=
  fun st =>
    let '(b, svc) :=
      localpermissions.HasPermissionTo (permissions st)
        (storeGetAllUsers uf (users (app st))) userID permission in
    (inr b, mkAPI (app st) svc (audit st)).

(** [auditRec := a.makeAuditRecord(r, event, audit.Fail)], the
    [AddMeta] calls, [defer a.audit.LogRecord(level, auditRec)], and
    [auditRec.Success()] as the last statement of the body: the record
    is logged on every exit, successful only when the body ran to its
    end. *)
Definition audited (lv : AuditLevel) (ev : string) (m : list (string * string))
    (body : H WS Response) : H WS Response :=
  fun st =>
    match body st with
    | (inl resp, st') =>
        (inl resp, mkAPI (app st') (permissions st')
                     (audit st' ++ [mkAuditRecord lv ev m false])%list)
    | (inr resp, st') =>
        (inr resp, mkAPI (app st') (permissions st')
                     (audit st' ++ [mkAuditRecord lv ev m true])%list)
    end.

Definition notAuthorized {A} : H WS A :=
  errorResponse (ErrUnauthorized "not authorized to access admin panel").

(** *** admin.go *)

Definition handleAdminSetPassword (r : Request AdminSetPasswordData.t)
    : API WS -> Response * API WS :=
  runHandler (
    let username := vars r "username" in
    requestData <- readBody r ;;
    audited LevelAuth "adminSetPassword" [("username", username)] (
      if negb (strings.Contains (AdminSetPasswordData.Password requestData) "")
      then errorResponse (ErrBadRequest "password is required")
      else
        tryErr (onApp (appUpdateUserPassword uf username
                         (AdminSetPasswordData.Password requestData))) ;;;
        ret (JSONResponse StatusOK EmptyObject))).

Definition handleAdminGetAllUsers {B} (r : Request B) : API WS -> Response * API WS :=
  runHandler (
    let session := session r in
    ok <- hasPermissionTo (UserID session) PermissionManageSystem ;;
    if negb ok then notAuthorized
    else
      audited LevelAuth "adminGetAllUsers" [] (
        users <- try (onApp (appGetAllUsers uf)) ;;
        ret (JSONResponse StatusOK (UsersJSON users)))).

Definition handleAdminGetUser {B} (r : Request B) : API WS -> Response * API WS :=
  runHandler (
    let session := session r in
    ok <- hasPermissionTo (UserID session) PermissionManageSystem ;;
    if negb ok then notAuthorized
    else
      let userID := vars r "userID" in
      audited LevelAuth "adminGetUser" [("userID", userID)] (
        user <- try (onApp (appGetUser uf userID)) ;;
        ret (JSONResponse StatusOK (UserJSON user)))).

Definition handleAdminUpdateUser (r : Request AdminUpdateUserData.t)
    : API WS -> Response * API WS :=
  runHandler (
    let session := session r in
    ok <- hasPermissionTo (UserID session) PermissionManageSystem ;;
    if negb ok then notAuthorized
    else
      let userID := vars r "userID" in
      updateData <- readBody r ;;
      audited LevelAuth "adminUpdateUser" [("userID", userID)] (
        user <- try (onApp (appGetUser uf userID)) ;;
        let user :=
          if negb (String.eqb (AdminUpdateUserData.Username updateData) "")
          then mkUser (ID user) (AdminUpdateUserData.Username updateData)
                      (Email user) (model.Password user) (CreateAt user) (UpdateAt user)
          else user in
        let user :=
          if negb (String.eqb (AdminUpdateUserData.Email updateData) "")
          then mkUser (ID user) (Username user)
                      (AdminUpdateUserData.Email updateData)
                      (model.Password user) (CreateAt user) (UpdateAt user)
          else user in
        updatedUser <- try (onApp (appUpdateUser uf user)) ;;
        (if negb (String.eqb (AdminUpdateUserData.Password updateData) "")
         then tryErr (onApp (appUpdateUserPasswordByID uf userID
                               (AdminUpdateUserData.Password updateData)))
         else ret tt) ;;;
        ret (JSONResponse StatusOK (UserJSON updatedUser)))).

Definition handleAdminDeleteUser {B} (r : Request B) : API WS -> Response * API WS :=
  runHandler (
    let session := session r in
    ok <- hasPermissionTo (UserID session) PermissionManageSystem ;;
    if negb ok then notAuthorized
    else
      let userID := vars r "userID" in
      audited LevelAuth "adminDeleteUser" [("userID", userID)] (
        if String.eqb userID (UserID session)
        then errorResponse (ErrBadRequest "cannot delete yourself")
        else
          tryErr (onApp (appDeleteUser uf userID)) ;;;
          ret (JSONResponse StatusOK EmptyObject))).

(** *** notifications.go *)

Definition handleGetUnreadCount {B} (rt : Runtime) (r : Request B)
    : API WS -> Response * API WS :=
  runHandler (
    let userID := getUserID r in
    count <- try (onApp (GetUnreadNotificationCount rt userID)) ;;
    ret (JSONResponse StatusOK (CountJSON count))).

Definition handleCreateNotification (rt : Runtime) (r : Request UserNotification)
    : API WS -> Response * API WS :=
  runHandler (
    notification <- readBody r ;;
    audited LevelModify "createNotification" [] (
      created <- try (onApp (CreateAndBroadcastNotification wsAdapter rt notification)) ;;
      ret (JSONResponse StatusOK (NotificationJSON created)))).

Definition handleMarkAsRead {B} (rt : Runtime) (r : Request B)
    : API WS -> Response * API WS :=
  runHandler (
    let notificationID := vars r "notificationID" in
    let userID := getUserID r in
    audited LevelModify "markNotificationAsRead" [] (
      tryErr (onApp (MarkNotificationAsRead rt notificationID userID)) ;;;
      ret (JSONResponse StatusOK EmptyObject))).

Definition handleMarkAllAsRead {B} (rt : Runtime) (r : Request B)
    : API WS -> Response * API WS :=
  runHandler (
    let userID := getUserID r in
    audited LevelModify "markAllNotificationsAsRead" [] (
      tryErr (onApp (MarkAllNotificationsAsRead rt userID)) ;;;
      ret (JSONResponse StatusOK EmptyObject))).

Definition handleDeleteNotification {B} (rt : Runtime) (r : Request B)
    : API WS -> Response * API WS :=
  runHandler (
    let notificationID := vars r "notificationID" in
    let userID := getUserID r in
    audited LevelModify "deleteNotification" [] (
      tryErr (onApp (DeleteUserNotification rt notificationID userID)) ;;;
      ret (JSONResponse StatusOK EmptyObject))).

End Handlers.

End api.

(* ================================================================== *)
(** ** A reference deployment *)

Module deployment.
Import app api.

(** Modelled from the spec: the user functions of the app layer are
    declared outside the files at hand; this is the plain "standard
    account entity with admin-managed CRUD" on a list, used where a
    concrete implementation of the interface is needed. *)
Definition listUsers : UserFuncs :=
  {| storeGetAllUsers := fun us => Ok us;
     GetAllUsers := fun us => Ok us;
     GetUser := fun userID us =>
       match find (fun u => String.eqb (ID u) userID) us with
       | Some u => Ok u
       | None => Err (ErrOther "user not found")
       end;
     UpdateUser := fun user us =>
       (Ok user, map (fun u => if String.eqb (ID u) (ID user) then user else u) us);
     UpdateUserPassword := fun username password us =>
       (None,
        map (fun u => if String.eqb (Username u) username
                      then mkUser (ID u) (Username u) (Email u) password
                                  (CreateAt u) (UpdateAt u)
                      else u) us);
     UpdateUserPasswordByID := fun userID password us =>
       (None,
        map (fun u => if String.eqb (ID u) userID
                      then mkUser (ID u) (Username u) (Email u) password
                                  (CreateAt u) (UpdateAt u)
                      else u) us);
     DeleteUser := fun userID us =>
       (None, filter (fun u => negb (String.eqb (ID u) userID)) us) |}.

(** Two WebSocket adapters over the list of pushed messages: one whose
    clients are connected, one whose every push fails. *)
Definition Pushed : Type := list (string * UserNotification).

Definition wsConnected : WSAdapter Pushed :=
  mkWSAdapter Pushed (fun userID n w => ((w ++ [(userID, n)])%list, true)).

Definition wsBroken : WSAdapter Pushed :=
  mkWSAdapter Pushed (fun _ _ w => (w, false)).

Definition alice : User := mkUser "alice" "alice" "alice@example.org" "h1" 10 10.
Definition bob : User := mkUser "bob" "bob" "bob@example.org" "h2" 20 20.
Definition mallory : User := mkUser "mallory" "mallory" "m@example.org" "h3" 30 30.

(** A healthy database at time 1000 handing out the identifier ["n1"]. *)
Definition rt0 : Runtime := mkRuntime 1000 "n1" None None.

(** The same with the driver refusing the statement. *)
Definition rtDown : Runtime :=
  mkRuntime 1000 "n1" (Some (ErrOther "connection refused")) None.

(** The body the web client posts when alice assigns bob to card C1. *)
Definition assignedBob (read : bool) : UserNotification :=
  mkUserNotification "" "bob" "alice" "Alice" "assigned" "C1" "Card one" "BRD1"
                     read 0 0.

Definition row (id target : string) (read : bool) (at_ : Z) : UserNotification :=
  mkUserNotification id target "alice" "Alice" "assigned" "C1" "Card one" "BRD1"
                     read at_ at_.

Definition table0 : Table :=
  [row "a" "bob" false 100; row "b" "bob" true 200;
   row "c" "mallory" false 300; row "d" "bob" false 400].

Definition api0 : API Pushed :=
  mkAPI (mkApp [alice; bob; mallory] table0 [] []) localpermissions.New [].

Definition pathVars (userID notificationID username : string) : string -> string :=
  fun k =>
    if String.eqb k "userID" then userID
    else if String.eqb k "notificationID" then notificationID
    else if String.eqb k "username" then username
    else "".

End deployment.

(* ================================================================== *)
(** ** Specification-side notions *)

(** [o] is the first registered user of [users]: the row with the smallest
    [CreateAt], the earliest such row when several share it. *)
Definition firstRegistered (users : list User) (o : User) : Prop :=
  exists pre post,
    users = (pre ++ o :: post)%list /\
    (forall u, In u pre -> CreateAt o < CreateAt u) /\
    (forall u, In u post -> CreateAt o <= CreateAt u).

(** [o] is stored and no stored user has a smaller [CreateAt]. *)
Definition smallestCreateAt (users : list User) (o : User) : Prop :=
  In o users /\ forall u, In u users -> CreateAt o <= CreateAt u.

(** The row [r] marked read at time [now]: [is_read] and [update_at]
    change, nothing else does. *)
Definition markedReadAt (now : Z) (r r' : UserNotification) : Prop :=
  Read r' = true /\ NUpdateAt r' = now /\
  NID r' = NID r /\ TargetUserID r' = TargetUserID r /\
  ActorUserID r' = ActorUserID r /\ ActorName r' = ActorName r /\
  NType r' = NType r /\ CardID r' = CardID r /\ CardTitle r' = CardTitle r /\
  BoardID r' = BoardID r /\ NCreateAt r' = NCreateAt r.

Section AdminGate.
Context {WS : Type} (uf : app.UserFuncs).

(** The answer of the manage-system check made for [sess] in state [st],
  and the API state after it (the service may have filled its cache). *)
Definition managesSystem (sess : Session) (st : api.API WS) : bool :=
fst (localpermissions.HasPermissionTo (api.permissions st)
       (app.storeGetAllUsers uf (app.users (api.app st)))
       (UserID sess) PermissionManageSystem).

Definition afterCheck (sess : Session) (st : api.API WS) : api.API WS :=
api.mkAPI (api.app st)
  (snd (localpermissions.HasPermissionTo (api.permissions st)
          (app.storeGetAllUsers uf (app.users (api.app st)))
          (UserID sess) PermissionManageSystem))
  (api.audit st).

(** The outcome of an admin handler for a caller the check turns down: the
  authorization failure, with the app state and the audit log untouched. *)
Definition denied (sess : Session) (st : api.API WS) : api.Response * api.API WS :=
(api.ErrorResponse (ErrUnauthorized "not authorized to access admin panel"),
 afterCheck sess st).

End AdminGate.

From Stdlib Require Import Permutation Sorted.

(* ================================================================== *)
(** ** package localpermissions: team, channel and board checks *)

Module scoped.

(** [model.BoardMember] is declared outside the files at hand; these are
    the fields [HasPermissionToBoard] reads and writes. *)
Record BoardMember : Type := mkBoardMember {
  MinimumRole : string;
  SchemeAdmin : bool;
  SchemeEditor : bool;
  SchemeCommenter : bool;
  SchemeViewer : bool
}.

(** What [s.store.GetMemberForBoard(boardID, userID)] returns: a member, an
    error for which [model.IsErrNotFound] holds, or another error. *)
Inductive MemberLookup : Type :=
| Member (member : BoardMember)
| MemberNotFound
| MemberError (e : Error).

(** A [*mmModel.Permission] as [HasPermissionToBoard] uses it: the [switch]
    compares the pointer with the permission variables of package model, so
    a permission is one of those variables or some other object (kept with
    its content). *)
Inductive PermissionRef : Type :=
| PermissionManageBoardType
| PermissionDeleteBoard
| PermissionManageBoardRoles
| PermissionShareBoard
| PermissionDeleteOthersComments
| PermissionManageBoardCards
| PermissionManageBoardProperties
| PermissionCommentBoardCards
| PermissionViewBoard
| OtherPermission (p : Permission).

(** The first [switch]: the minimum role of the board raises the member's
    scheme flag of that role. *)
Definition applyMinimumRole (member : BoardMember) : BoardMember :=
  if String.eqb (MinimumRole member) "admin" then
    mkBoardMember (MinimumRole member) true (SchemeEditor member)
                  (SchemeCommenter member) (SchemeViewer member)
  else if String.eqb (MinimumRole member) "editor" then
    mkBoardMember (MinimumRole member) (SchemeAdmin member) true
                  (SchemeCommenter member) (SchemeViewer member)
  else if String.eqb (MinimumRole member) "commenter" then
    mkBoardMember (MinimumRole member) (SchemeAdmin member) (SchemeEditor member)
                  true (SchemeViewer member)
  else if String.eqb (MinimumRole member) "viewer" then
    mkBoardMember (MinimumRole member) (SchemeAdmin member) (SchemeEditor member)
                  (SchemeCommenter member) true
  else member.

Section WithStore.
(** [model.PermissionManageTeam] is declared outside the files at hand and
    is taken as given; [GetMemberForBoard] is the store method. *)
Context (PermissionManageTeam : Permission)
        (GetMemberForBoard : string -> string -> MemberLookup).

(** [HasPermissionToTeam]; [None] is the nil permission. *)
Definition HasPermissionToTeam (userID teamID : string)
    (permission : option Permission) : bool :=
  match permission with
  | None => false
  | Some p =>
      if String.eqb userID "" || String.eqb teamID "" then false
      else if String.eqb (Id p) (Id PermissionManageTeam) then false
      else true
  end.

Definition HasPermissionToChannel (userID channelID : string)
    (permission : option Permission) : bool :=
  match permission with
  | None => false
  | Some _ =>
      if String.eqb userID "" || String.eqb channelID "" then false
      else true
  end.

Definition HasPermissionToBoard (userID boardID : string)
    (permission : option PermissionRef) : bool :=
  match permission with
  | None => false
  | Some permission =>
      if String.eqb userID "" || String.eqb boardID "" then false
      else
        match GetMemberForBoard boardID userID with
        | MemberNotFound => false
        | MemberError _ => false
        | Member member =>
            let member := applyMinimumRole member in
            match permission with
            | PermissionManageBoardType | PermissionDeleteBoard
            | PermissionManageBoardRoles | PermissionShareBoard
            | PermissionDeleteOthersComments =>
                SchemeAdmin member
            | PermissionManageBoardCards | PermissionManageBoardProperties =>
                SchemeAdmin member || SchemeEditor member
            | PermissionCommentBoardCards =>
                SchemeAdmin member || SchemeEditor member || SchemeCommenter member
            | PermissionViewBoard =>
                SchemeAdmin member || SchemeEditor member || SchemeCommenter member
                || SchemeViewer member
            | OtherPermission _ => false
            end
        end
  end.

End WithStore.

End scoped.

(* ================================================================== *)
(** ** package sqlstore: reading notifications *)

Module sqlselect.

(** [sq.Eq{"target_user_id": userID}] *)
Definition eqTarget (userID : string) (r : UserNotification) : bool :=
  String.eqb (TargetUserID r) userID.

(** [ORDER BY create_at DESC].  SQL leaves the order of rows with equal
    [create_at] to the engine; here they keep their table order. *)
Fixpoint insertDesc (r : UserNotification) (sorted : list UserNotification)
    : list UserNotification :=
  match sorted with
  | [] => [r]
  | x :: rest =>
      if NCreateAt r <? NCreateAt x then x :: insertDesc r rest
      else r :: x :: rest
  end.

Definition orderByCreateAtDesc (rows : list UserNotification) : list UserNotification :=
  fold_right insertDesc [] rows.

(** [userNotificationFromRows]: the [for rows.Next()] loop over the result
    set; [scanned] holds what [rows.Scan] yields for each row in turn.  The
    first failing scan ends the call with that error. *)
Fixpoint userNotificationFromRows (scanned : list (Result UserNotification))
    : Result (list UserNotification) :=
  match scanned with
  | [] => Ok []
  | Err e :: _ => Err e
  | Ok notification :: rest =>
      match userNotificationFromRows rest with
      | Ok notifications => Ok (notification :: notifications)
      | Err e => Err e
      end
  end.

(** [getUserNotifications]; [scan] is the driver's [rows.Scan] on a row of
    the table. *)
Definition getUserNotifications (rt : Runtime)
    (scan : UserNotification -> Result UserNotification)
    (userID : string) (limit : Z) (t : Table) : Result (list UserNotification) :=
  let rows := orderByCreateAtDesc (filter (eqTarget userID) t) in
  let rows := if 0 <? limit then firstn (Z.to_nat limit) rows else rows in
  match execErr rt with
  | Some e => Err e
  | None => userNotificationFromRows (map scan rows)
  end.

End sqlselect.

(* ================================================================== *)
(** ** package api: read-only handlers *)

Module strconv.

Definition isDigit (c : ascii) : bool :=
  (48 <=? nat_of_ascii c)%nat && (nat_of_ascii c <=? 57)%nat.

(** The value of a run of decimal digits, [None] when a character is not a
    digit. *)
Fixpoint digitsValue (s : string) (acc : Z) : option Z :=
  match s with
  | EmptyString => Some acc
  | String c rest =>
      if isDigit c
      then digitsValue rest (10 * acc + (Z.of_nat (nat_of_ascii c) - 48))
      else None
  end.

(** [strconv.Atoi] on a 64-bit platform: an optional sign, at least one
    decimal digit, nothing else, and a value that fits [int]; [None] stands
    for the syntax and the range error. *)
Definition Atoi (s : string) : option Z :=
  let '(neg, digits) :=
    match s with
    | String "+" rest => (false, rest)
    | String "-" rest => (true, rest)
    | _ => (false, s)
    end in
  match digits with
  | EmptyString => None
  | _ =>
      match digitsValue digits 0 with
      | None => None
      | Some n =>
          let v := if neg then - n else n in
          if (- 2 ^ 63 <=? v) && (v <=? 2 ^ 63 - 1) then Some v else None
      end
  end.

End strconv.

Module apiread.
Import app api sqlselect.

(** [a.app.GetUserNotifications], through [a.store.GetUserNotifications]. *)
Definition GetUserNotifications {WS : Type} (rt : Runtime)
    (scan : UserNotification -> Result UserNotification)
    (userID : string) (limit : Z) (a : App WS) : Result (list UserNotification) :=
  getUserNotifications rt scan userID limit (notifications a).

(** What [handleGetNotifications] writes. *)
Inductive ListResponse : Type :=
| NotificationsJSON (status : Z) (notifications : list UserNotification)
| ListError (e : Error).

(** The [limit] the handler passes on: 50 unless the query has a [limit]
    that [strconv.Atoi] accepts. *)
Definition requestedLimit (query : string -> string) : Z :=
  let limit := 50 in
  let limitStr := query "limit" in
  if negb (String.eqb limitStr "") then
    match strconv.Atoi limitStr with
    | Some l => l
    | None => limit
    end
  else limit.

(** [handleGetNotifications]; [query] is [r.URL.Query().Get]. *)
Definition handleGetNotifications {WS B : Type} (rt : Runtime)
    (scan : UserNotification -> Result UserNotification)
    (query : string -> string) (r : Request B) (st : API WS)
    : ListResponse * API WS :=
  let userID := getUserID r in
  let limit := requestedLimit query in
  match GetUserNotifications rt scan userID limit (app st) with
  | Err e =>
      (ListError e,
       mkAPI (app st) (permissions st)
         (audit st ++ [mkAuditRecord LevelRead "getNotifications" [] false])%list)
  | Ok notifications =>
      (NotificationsJSON StatusOK notifications,
       mkAPI (app st) (permissions st)
         (audit st ++ [mkAuditRecord LevelRead "getNotifications" [] true])%list)
  end.

(** What [handleGetAvatar] writes: [http.ServeFile] of a path under the two
    headers it sets, or [http.NotFound]. *)
Inductive AvatarResponse : Type :=
| ServeFile (path contentType cacheControl : string)
| AvatarNotFound.

Definition contentTypeOf (ext : string) : string :=
  if String.eqb ext ".png" then "image/png"
  else if String.eqb ext ".gif" then "image/gif"
  else if String.eqb ext ".webp" then "image/webp"
  else "image/jpeg".

(** The [for _, ext := range ...] loop; [Join] is [filepath.Join] and
    [stat path] tells whether [os.Stat(path)] returns no error. *)
Fixpoint avatarLoop (Join : string -> string -> string) (stat : string -> bool)
    (avatarsDir userID : string) (exts : list string) : AvatarResponse :=
  match exts with
  | [] => AvatarNotFound
  | ext :: rest =>
      let avatarPath := Join avatarsDir (userID ++ ext) in
      if stat avatarPath
      then ServeFile avatarPath (contentTypeOf ext) "public, max-age=86400"
      else avatarLoop Join stat avatarsDir userID rest
  end.

Definition avatarExtensions : list string := [".jpg"; ".png"; ".gif"; ".webp"].

Definition handleGetAvatar (Join : string -> string -> string) (stat : string -> bool)
    (FilesPath userID : string) : AvatarResponse :=
  let avatarsDir := Join FilesPath "avatars" in
  avatarLoop Join stat avatarsDir userID avatarExtensions.

End apiread.

(* ================================================================== *)
(** ** webapp: store/notifications.ts *)

Module notificationsSlice.

(** [MemberNotification], the client-side shape. *)
Record MemberNotification : Type := mkMemberNotification {
  id : string;
  type : string;
  cardTitle : string;
  cardId : string;
  boardId : string;
  memberName : string;
  memberUsername : string;
  targetUserId : string;
  actorName : string;
  timestamp : Z;
  read : bool
}.

Definition convertFromServer (serverNotif : UserNotification) : MemberNotification :=
  {| id := NID serverNotif;
     type := NType serverNotif;
     cardTitle := CardTitle serverNotif;
     cardId := CardID serverNotif;
     boardId := BoardID serverNotif;
     memberName := ActorName serverNotif;
     memberUsername := ActorName serverNotif;
     targetUserId := TargetUserID serverNotif;
     actorName := ActorName serverNotif;
     timestamp := NCreateAt serverNotif;
     read := Read serverNotif |}.

Record NotificationsState : Type := mkState {
  notifications : list MemberNotification;
  showToast : bool;
  currentToast : option MemberNotification;
  currentUserId : option string;
  loading : bool
}.

Definition initialState : NotificationsState :=
  mkState [] false None None false.

Definition withRead (n : MemberNotification) : MemberNotification :=
  mkMemberNotification (id n) (type n) (cardTitle n) (cardId n) (boardId n)
    (memberName n) (memberUsername n) (targetUserId n) (actorName n)
    (timestamp n) true.

(** [state.notifications.unshift(notification)], the toast, and the cut to
    the 50 newest entries. *)
Definition pushFront (notification : MemberNotification) (state : NotificationsState)
    : NotificationsState :=
  let notifications := notification :: notifications state in
  let notifications :=
    if (50 <? Z.of_nat (length notifications)) then firstn 50 notifications
    else notifications in
  mkState notifications true (Some notification) (currentUserId state) (loading state).

Definition setCurrentUserId (state : NotificationsState) (payload : string)
    : NotificationsState :=
  mkState (notifications state) (showToast state) (currentToast state)
          (Some payload) (loading state).

(** [addNotification]: the payload spread, then [id], [timestamp] and
    [read] set; [newId] is the string built from [Date.now()] and
    [Math.random()], [now] is [Date.now()]. *)
Definition addNotification (newId : string) (now : Z) (state : NotificationsState)
    (payload : MemberNotification) : NotificationsState :=
  let notification :=
    mkMemberNotification newId (type payload) (cardTitle payload) (cardId payload)
      (boardId payload) (memberName payload) (memberUsername payload)
      (targetUserId payload) (actorName payload) now false in
  pushFront notification state.

(** [receiveNotification]: a payload with a [createAt] key is in the
    server format ([inr]) and is converted. *)
Definition receiveNotification (state : NotificationsState)
    (payload : MemberNotification + UserNotification) : NotificationsState :=
  let notification :=
    match payload with
    | inr server => convertFromServer server
    | inl member => member
    end in
  let exists_ :=
    existsb (fun n => String.eqb (id n) (id notification)) (notifications state) in
  if negb exists_ then pushFront notification state else state.

Definition dismissToast (state : NotificationsState) : NotificationsState :=
  mkState (notifications state) false None (currentUserId state) (loading state).

(** [find] then [notification.read = true]: the first entry with that id. *)
Fixpoint markFirst (target : string) (l : list MemberNotification)
    : list MemberNotification :=
  match l with
  | [] => []
  | n :: rest =>
      if String.eqb (id n) target then withRead n :: rest
      else n :: markFirst target rest
  end.

Definition markAsRead (state : NotificationsState) (payload : string)
    : NotificationsState :=
  mkState (markFirst payload (notifications state)) (showToast state)
          (currentToast state) (currentUserId state) (loading state).

Definition markAllAsRead (state : NotificationsState) : NotificationsState :=
  mkState (map withRead (notifications state)) (showToast state)
          (currentToast state) (currentUserId state) (loading state).

Definition clearNotifications (state : NotificationsState) : NotificationsState :=
  mkState [] (showToast state) (currentToast state) (currentUserId state)
          (loading state).

(** [fetchNotifications.fulfilled] *)
Definition fetchFulfilled (state : NotificationsState)
    (payload : list MemberNotification) : NotificationsState :=
  mkState payload (showToast state) (currentToast state) (currentUserId state) false.

(** The selector [getUnreadCount]. *)
Definition getUnreadCount (state : NotificationsState) : Z :=
  Z.of_nat (length (filter (fun n => negb (read n)) (notifications state))).

End notificationsSlice.

(* ================================================================== *)
(** ** webapp: store/memberFilter.ts *)

Module memberFilter.

(** [Array.prototype.indexOf]: the first index holding [x], or [-1]. *)
Fixpoint indexOf (x : string) (l : list string) : Z :=
  match l with
  | [] => -1
  | y :: rest =>
      if String.eqb y x then 0
      else let i := indexOf x rest in if i <? 0 then -1 else i + 1
  end.

(** [l.splice(index, 1)] for an index within the array. *)
Fixpoint splice1 (index : nat) (l : list string) : list string :=
  match l, index with
  | [], _ => []
  | _ :: rest, O => rest
  | y :: rest, S i => y :: splice1 i rest
  end.

Definition setMemberFilter (memberIds payload : list string) : list string := payload.

Definition clearMemberFilter (memberIds : list string) : list string := [].

Definition toggleMemberFilter (memberIds : list string) (payload : string)
    : list string :=
  let userId := payload in
  let index := indexOf userId memberIds in
  if index =? -1 then (memberIds ++ [userId])%list
  else splice1 (Z.to_nat index) memberIds.

Definition hasMemberFilter (memberIds : list string) : bool :=
  (0 <? Z.of_nat (length memberIds)).

End memberFilter.

(* ================================================================== *)
(** ** webapp: avatar colour *)

Module avatar.

(** ECMAScript [ToInt32]. *)
Definition toInt32 (z : Z) : Z := (z + 2 ^ 31) mod 2 ^ 32 - 2 ^ 31.

(** [hash << 5]: the operand through [ToInt32], the shifted value kept to
    32 bits. *)
Definition shl5 (hash : Z) : Z := toInt32 (toInt32 hash * 32).

(** One round of the loop, on the code unit [c] of [userId.charCodeAt(i)].
    The subtraction and the addition are Number arithmetic, not wrapped. *)
Definition hashStep (hash c : Z) : Z := c + (shl5 hash - hash).

Definition hashOf (userId : list Z) : Z := fold_left hashStep userId 0.

Definition colors : list string :=
  ["#FF6B6B"; "#4ECDC4"; "#45B7D1"; "#96CEB4";
   "#FFEAA7"; "#DDA0DD"; "#98D8C8"; "#F7DC6F";
   "#BB8FCE"; "#85C1E9"; "#F8B500"; "#00CED1"].

(** [getAvatarColor]; [userId] as its UTF-16 code units, [None] for the
    [undefined] of an index outside the array. *)
Definition getAvatarColor (userId : list Z) : option string :=
  nth_error colors
    (Z.to_nat (Z.abs (hashOf userId) mod Z.of_nat (length colors))).

End avatar.

(* ================================================================== *)
(** ** Further fixtures *)

Module fixtures.
Import app.

(** A user layer whose password change fails; everything else as in
    [deployment.listUsers]. *)
Definition rejectingPasswords : UserFuncs :=
  {| storeGetAllUsers := storeGetAllUsers deployment.listUsers;
     GetAllUsers := GetAllUsers deployment.listUsers;
     GetUser := GetUser deployment.listUsers;
     UpdateUser := UpdateUser deployment.listUsers;
     UpdateUserPassword := fun _ _ us => (Some (ErrBadRequest "password too weak"), us);
     UpdateUserPasswordByID := fun _ _ us => (Some (ErrBadRequest "password too weak"), us);
     DeleteUser := DeleteUser deployment.listUsers |}.

(** Sixty rows for bob, ids ["r0"], ["r1"], ... in table order, created at
    times 0, 1, ... *)
Fixpoint manyRows (n : nat) : Table :=
  match n with
  | O => []
  | S k =>
      (manyRows k ++
       [deployment.row (String "r" (String (ascii_of_nat (48 + k mod 10))
                                      (String (ascii_of_nat (48 + k / 10)) EmptyString)))
                       "bob" false (Z.of_nat k)])%list
  end.

Definition scanOk (r : UserNotification) : Result UserNotification := Ok r.

End fixtures.

(* ================================================================== *)
(** ** Specification-side notions for the further properties *)

Section BoardLevels.
Import scoped.

(** Board roles as levels: viewer 1, commenter 2, editor 3, admin 4. *)
Definition roleRank (role : string) : nat :=
  if String.eqb role "admin" then 4
  else if String.eqb role "editor" then 3
  else if String.eqb role "commenter" then 2
  else if String.eqb role "viewer" then 1
  else 0.

(** The highest scheme flag a member row carries. *)
Definition schemeLevel (m : BoardMember) : nat :=
  if SchemeAdmin m then 4
  else if SchemeEditor m then 3
  else if SchemeCommenter m then 2
  else if SchemeViewer m then 1
  else 0.

(** The level a board permission asks for; 0 for a permission object the
    board check does not know. *)
Definition permissionLevel (p : PermissionRef) : nat :=
  match p with
  | PermissionManageBoardType | PermissionDeleteBoard | PermissionManageBoardRoles
  | PermissionShareBoard | PermissionDeleteOthersComments => 4
  | PermissionManageBoardCards | PermissionManageBoardProperties => 3
  | PermissionCommentBoardCards => 2
  | PermissionViewBoard => 1
  | OtherPermission _ => 0
  end.

(** [m'] has at least the minimum role and the scheme flags of [m]. *)
Definition memberLe (m m' : BoardMember) : Prop :=
  (roleRank (MinimumRole m) <= roleRank (MinimumRole m'))%nat /\
  (SchemeAdmin m = true -> SchemeAdmin m' = true) /\
  (SchemeEditor m = true -> SchemeEditor m' = true) /\
  (SchemeCommenter m = true -> SchemeCommenter m' = true) /\
  (SchemeViewer m = true -> SchemeViewer m' = true).

End BoardLevels.

(** [b] is not newer than [a]. *)
Definition newer (a b : UserNotification) : Prop := NCreateAt b <= NCreateAt a.

(** Newest first. *)
Definition newestFirst (rows : list UserNotification) : Prop :=
  forall i j a b,
    (i < j)%nat -> nth_error rows i = Some a -> nth_error rows j = Some b ->
    NCreateAt b <= NCreateAt a.

(** The table honours [PRIMARY KEY (id)]. *)
Definition uniqueIds (t : Table) : Prop := NoDup (map NID t).

(** A handler answered with a 200. *)
Definition isOK (resp : api.Response) : bool :=
  match resp with
  | api.JSONResponse status _ => status =? api.StatusOK
  | api.ErrorResponse _ => false
  end.

(** The audit log [after] a request is the log [before] plus exactly one
    record, whose success flag is [ok]. *)
Definition auditedOnce (before after : list api.AuditRecord) (ok : bool) : Prop :=
  exists rec, after = (before ++ [rec])%list /\ api.success rec = ok.

(** A request was either turned down before its audit record was made (no
    record, and an error response), or it left exactly one record whose
    success flag tells whether the response was a 200. *)
Definition auditConsistent {WS : Type} (st st' : api.API WS) (resp : api.Response)
    : Prop :=
  (api.audit st' = api.audit st /\ isOK resp = false) \/
  auditedOnce (api.audit st) (api.audit st') (isOK resp).

(** The user object [handleAdminUpdateUser] hands to [UpdateUser]: the
    stored user with the non-empty [username] and [email] of the body. *)
Definition mergedUser (user : User) (updateData : AdminUpdateUserData.t) : User :=
  mkUser (ID user)
    (if String.eqb (AdminUpdateUserData.Username updateData) ""
     then Username user else AdminUpdateUserData.Username updateData)
    (if String.eqb (AdminUpdateUserData.Email updateData) ""
     then Email user else AdminUpdateUserData.Email updateData)
    (model.Password user) (CreateAt user) (UpdateAt user).

(* ================================================================== *)
(** * Properties *)

Import localpermissions app api deployment.

(** ** Local permissions: the first registered user *)

Lemma firstRegistered_smallest users o :
  firstRegistered users o -> smallestCreateAt users o.
Proof.
  intros (pre & post & -> & Hpre & Hpost). split.
  - apply in_or_app. right. left. reflexivity.
  - intros u Hu. apply in_app_or in Hu. destruct Hu as [Hu | [<- | Hu]].
    + apply Hpre in Hu. lia.
    + lia.
    + apply Hpost, Hu.
Qed.

(** The loop keeps the first registered user of what it has seen. *)
Lemma oldestLoop_firstRegistered rest :
  forall seen o,
    firstRegistered seen o ->
    exists m, oldestLoop rest (Some o) = Some m /\
              firstRegistered (seen ++ rest) m.
Proof.
  induction rest as [| u rest IH]; intros seen o Ho; simpl.
  - exists o. rewrite app_nil_r. auto.
  - destruct (Z.ltb_spec (CreateAt u) (CreateAt o)) as [Hlt | Hge].
    + destruct (IH (seen ++ [u])%list u) as (m & Hm & Hfirst).
      * exists seen, []. repeat split.
        -- intros x Hx.
           destruct (firstRegistered_smallest _ _ Ho) as [_ Hmin].
           specialize (Hmin x Hx). lia.
        -- intros x [].
      * exists m. split; [exact Hm |].
        rewrite <- app_assoc in Hfirst. exact Hfirst.
    + destruct Ho as (pre & post & -> & Hpre & Hpost).
      destruct (IH ((pre ++ o :: post) ++ [u])%list o) as (m & Hm & Hfirst).
      * exists pre, (post ++ [u])%list. repeat split.
        -- rewrite <- app_assoc. reflexivity.
        -- exact Hpre.
        -- intros x Hx. apply in_app_or in Hx. destruct Hx as [Hx | [<- | []]].
           ++ apply Hpost, Hx.
           ++ exact Hge.
      * exists m. split; [exact Hm |].
        rewrite <- app_assoc in Hfirst. exact Hfirst.
Qed.

Lemma oldestLoop_nonempty users :
  users <> [] ->
  exists o, oldestLoop users None = Some o /\ firstRegistered users o.
Proof.
  destruct users as [| u rest]; [congruence | intros _]. simpl.
  destruct (oldestLoop_firstRegistered rest [u] u) as (m & Hm & Hfirst).
  - exists [], []. repeat split; intros x [].
  - exists m. auto.
Qed.

Lemma HasPermissionTo_cached s users userID :
  firstUserDone s = true ->
  HasPermissionTo s users userID PermissionManageSystem
  = (String.eqb userID (firstUserID s), s).
Proof.
  intros Hdone. unfold HasPermissionTo. rewrite String.eqb_refl, Hdone.
  reflexivity.
Qed.

Lemma HasPermissionTo_other s users userID p :
  Id p <> Id PermissionManageSystem ->
  HasPermissionTo s users userID p = (false, s).
Proof.
  intros Hne. unfold HasPermissionTo.
  destruct (String.eqb_spec (Id p) (Id PermissionManageSystem)); [contradiction | reflexivity].
Qed.

(** C1 (as amended).  [HasPermissionTo] answers false for every permission
    other than manage-system.  For manage-system the service resolves the
    admin once: on its first manage-system check, when the store returns a
    non-empty user list, the answer is true exactly for the ID of the user
    with the smallest [CreateAt] (the earliest row on a tie), that ID is
    cached, and every later manage-system check on the service compares
    with the cached ID whatever the store holds by then. *)
Theorem HasPermissionTo_first_user_cached :
  forall (s : Service) (users : list User) (userID : string),
    firstUserDone s = false ->
    users <> [] ->
    exists o,
      firstRegistered users o /\
      HasPermissionTo s (Ok users) userID PermissionManageSystem
      = (String.eqb userID (ID o), mkService (ID o) true) /\
      (forall later uid,
          HasPermissionTo (mkService (ID o) true) later uid PermissionManageSystem
          = (String.eqb uid (ID o), mkService (ID o) true)) /\
      (forall s' store uid p,
          Id p <> Id PermissionManageSystem ->
          HasPermissionTo s' store uid p = (false, s')).
Proof.
  intros s users userID Hfresh Hne.
  destruct (oldestLoop_nonempty users Hne) as (o & Hloop & Hfirst).
  exists o. split; [exact Hfirst |]. split; [| split].
  - unfold HasPermissionTo. rewrite String.eqb_refl, Hfresh. simpl negb. cbv iota.
    destruct users as [| u rest]; [congruence |].
    replace (0 <? Z.of_nat (length (u :: rest))) with true
      by (symmetry; apply Z.ltb_lt; simpl length; lia).
    rewrite Hloop. reflexivity.
  - intros later uid. apply HasPermissionTo_cached. reflexivity.
  - intros s' store uid p Hp. apply HasPermissionTo_other, Hp.
Qed.

Lemma HasPermissionTo_first_user_cached_witness :
  exists o,
    firstRegistered [bob; alice; mallory] o /\
    HasPermissionTo New (Ok [bob; alice; mallory]) "alice" PermissionManageSystem
    = (String.eqb "alice" (ID o), mkService (ID o) true) /\
    (forall later uid,
        HasPermissionTo (mkService (ID o) true) later uid PermissionManageSystem
        = (String.eqb uid (ID o), mkService (ID o) true)) /\
    (forall s' store uid p,
        Id p <> Id PermissionManageSystem ->
        HasPermissionTo s' store uid p = (false, s')).
Proof.
  apply (HasPermissionTo_first_user_cached New [bob; alice; mallory] "alice").
  - reflexivity.
  - discriminate.
Defined.

(** C1 refuted as stated.  After alice, the first registered user, was
    resolved as admin and then deleted, bob holds the smallest [CreateAt] of
    the store, yet the manage-system check still answers false for bob and
    true for alice. *)
Lemma HasPermissionTo_follows_store_counterexample :
  let s1 := snd (HasPermissionTo New (Ok [alice; bob]) "alice" PermissionManageSystem) in
  reachable s1 /\
  smallestCreateAt [bob] bob /\
  fst (HasPermissionTo s1 (Ok [bob]) (ID bob) PermissionManageSystem) = false /\
  fst (HasPermissionTo s1 (Ok [bob]) "alice" PermissionManageSystem) = true.
Proof.
  cbv zeta. split; [| split; [| split]].
  - apply reachable_call, reachable_New.
  - split; [left; reflexivity |].
    intros u [<- | []]. lia.
  - reflexivity.
  - reflexivity.
Qed.

(** ** The user_notifications table *)

Section Statements.
Variables (set : UserNotification -> UserNotification)
          (where_ : UserNotification -> bool).

Lemma update_no_match t :
  (forall r, In r t -> where_ r = false) ->
  map (fun r => if where_ r then set r else r) t = t.
Proof.
  induction t as [| r t IH]; intros Hnone; simpl; [reflexivity |].
  rewrite (Hnone r (or_introl eq_refl)).
  f_equal. apply IH. intros r' Hr'. apply Hnone. right. exact Hr'.
Qed.

Lemma delete_no_match t :
  (forall r, In r t -> where_ r = false) ->
  filter (fun r => negb (where_ r)) t = t.
Proof.
  induction t as [| r t IH]; intros Hnone; simpl; [reflexivity |].
  rewrite (Hnone r (or_introl eq_refl)). simpl.
  f_equal. apply IH. intros r' Hr'. apply Hnone. right. exact Hr'.
Qed.

Lemma update_nth t i r :
  nth_error t i = Some r ->
  nth_error (map (fun r => if where_ r then set r else r) t) i = Some (if where_ r then set r else r).
Proof.
  intros Hi. rewrite nth_error_map, Hi. reflexivity.
Qed.

(** When the [SET] clause falsifies the [WHERE] clause, no row matches
    after the update. *)
Lemma update_clears_matches t :
  (forall r, where_ r = true -> where_ (set r) = false) ->
  filter where_ (map (fun r => if where_ r then set r else r) t) = [].
Proof.
  intros Hset. induction t as [| r t IH]; simpl; [reflexivity |].
  destruct (where_ r) eqn:Hw.
  - rewrite (Hset r Hw). exact IH.
  - rewrite Hw. exact IH.
Qed.

End Statements.

Lemma eqIdTarget_false nid uid r :
  (NID r = nid -> TargetUserID r <> uid) ->
  eqIdTarget nid uid r = false.
Proof.
  intros H. unfold eqIdTarget.
  destruct (String.eqb_spec (NID r) nid) as [Hid | Hid]; [| reflexivity].
  destruct (String.eqb_spec (TargetUserID r) uid) as [Ht | Ht]; [| reflexivity].
  exfalso. exact (H Hid Ht).
Qed.

Lemma eqTargetUnread_true u r :
  eqTargetUnread u r = true <-> TargetUserID r = u /\ Read r = false.
Proof.
  unfold eqTargetUnread. rewrite andb_true_iff, String.eqb_eq.
  destruct (Read r); simpl; intuition congruence.
Qed.

Lemma markedReadAt_setReadAt now r : markedReadAt now r (setReadAt now r).
Proof. unfold markedReadAt, setReadAt. simpl. repeat split. Qed.

(** C4.  Mark-all-read for user [u] succeeds on a working database, keeps
    every row in place, turns exactly the rows of [u] that were unread into
    read rows stamped with the current time, leaves every other row (those
    of other users, and those of [u] already read) as it was, and leaves
    [u] with an unread count of zero; the endpoint answers 200. *)
Theorem markAllNotificationsAsRead_exactly_unread_of_user :
  forall (WS B : Type) (rt : Runtime) (r : Request B) (st : API WS),
    execErr rt = None ->
    let u := getUserID r in
    let t := notifications (app st) in
    let res := handleMarkAllAsRead rt r st in
    let t' := notifications (app (snd res)) in
    fst res = JSONResponse StatusOK EmptyObject /\
    markAllNotificationsAsRead rt u t = (None, t') /\
    length t' = length t /\
    (forall i row, nth_error t i = Some row ->
       TargetUserID row = u -> Read row = false ->
       exists row', nth_error t' i = Some row' /\ markedReadAt (GetMillis rt) row row') /\
    (forall i row, nth_error t i = Some row ->
       TargetUserID row <> u \/ Read row = true ->
       nth_error t' i = Some row) /\
    getUnreadNotificationCount rt u t' = Ok 0.
Proof.
  intros WS B rt r st Hexec u t res t'.
  assert (Hstore : markAllNotificationsAsRead rt u t
                   = (None, map (fun x => if eqTargetUnread u x
                                          then setReadAt (GetMillis rt) x else x) t)).
  { unfold markAllNotificationsAsRead, Exec, sqlUpdate. rewrite Hexec. reflexivity. }
  assert (Ht' : t' = map (fun x => if eqTargetUnread u x
                                   then setReadAt (GetMillis rt) x else x) t).
  { subst t' res. unfold handleMarkAllAsRead, runHandler, audited, bind, tryErr,
      bind, onApp, MarkAllNotificationsAsRead.
    fold u. fold t. rewrite Hstore. reflexivity. }
  split; [| split; [| split; [| split; [| split]]]].
  - subst res. unfold handleMarkAllAsRead, runHandler, audited, bind, tryErr,
      bind, onApp, MarkAllNotificationsAsRead.
    fold u. fold t. rewrite Hstore. reflexivity.
  - rewrite Ht'. exact Hstore.
  - rewrite Ht'. apply length_map.
  - intros i row Hi Htarget Hread. exists (setReadAt (GetMillis rt) row). split.
    + rewrite Ht'. rewrite (update_nth _ _ _ _ _ Hi).
      replace (eqTargetUnread u row) with true
        by (symmetry; apply eqTargetUnread_true; auto).
      reflexivity.
    + apply markedReadAt_setReadAt.
  - intros i row Hi Hother.
    rewrite Ht'. rewrite (update_nth _ _ _ _ _ Hi).
    destruct (eqTargetUnread u row) eqn:Hw; [| reflexivity].
    apply eqTargetUnread_true in Hw. destruct Hw as [Htarget Hread].
    destruct Hother as [Hne | Hrd]; [contradiction | congruence].
  - unfold getUnreadNotificationCount, sqlCount. rewrite Hexec, Ht'.
    rewrite update_clears_matches; [reflexivity |].
    intros x Hx. apply eqTargetUnread_true in Hx. destruct Hx as [Htarget _].
    unfold eqTargetUnread, setReadAt. simpl. apply andb_false_r.
Qed.

Lemma markAllNotificationsAsRead_exactly_unread_of_user_witness :
  let req := mkRequest (mkSession "bob") (pathVars "" "" "") (BodyValue tt) in
  execErr rt0 = None /\
  notifications (app (snd (handleMarkAllAsRead rt0 req api0)))
  = [setReadAt 1000 (row "a" "bob" false 100); row "b" "bob" true 200;
     row "c" "mallory" false 300; setReadAt 1000 (row "d" "bob" false 400)] /\
  getUnreadNotificationCount rt0 "bob"
    (notifications (app (snd (handleMarkAllAsRead rt0 req api0)))) = Ok 0.
Proof.
  intros req.
  destruct (markAllNotificationsAsRead_exactly_unread_of_user
              Pushed unit rt0 req api0 eq_refl)
    as (_ & _ & _ & _ & _ & Hcount).
  split; [reflexivity |]. split; [reflexivity | exact Hcount].
Defined.

(** C5.  Marking as read a notification that does not exist, or that
    belongs to another user, succeeds on a working database: the store
    function returns no error, the endpoint answers 200, and the table (and
    everything else below the API but the call trace) is as before. *)
Theorem markNotificationAsRead_missing_is_noop :
  forall (WS B : Type) (rt : Runtime) (r : Request B) (st : API WS),
    execErr rt = None ->
    rowsAffectedErr rt = None ->
    (forall row, In row (notifications (app st)) ->
       ~ (NID row = vars r "notificationID" /\ TargetUserID row = getUserID r)) ->
    markNotificationAsRead rt (vars r "notificationID") (getUserID r)
      (notifications (app st)) = (None, notifications (app st)) /\
    fst (handleMarkAsRead rt r st) = JSONResponse StatusOK EmptyObject /\
    notifications (app (snd (handleMarkAsRead rt r st))) = notifications (app st) /\
    users (app (snd (handleMarkAsRead rt r st))) = users (app st) /\
    ws (app (snd (handleMarkAsRead rt r st))) = ws (app st).
Proof.
  intros WS B rt r st Hexec Hrows Hnone.
  assert (Hstore : markNotificationAsRead rt (vars r "notificationID") (getUserID r)
                     (notifications (app st)) = (None, notifications (app st))).
  { unfold markNotificationAsRead, Exec, sqlUpdate. rewrite Hexec, Hrows.
    rewrite update_no_match; [reflexivity |].
    intros row Hin. apply eqIdTarget_false. intros Hid Ht.
    exact (Hnone row Hin (conj Hid Ht)). }
  split; [exact Hstore |].
  unfold handleMarkAsRead, runHandler, audited, bind, tryErr, bind, onApp,
    MarkNotificationAsRead.
  rewrite Hstore. simpl. repeat split.
Qed.

Lemma markNotificationAsRead_missing_is_noop_witness :
  let req := mkRequest (mkSession "bob") (pathVars "" "c" "") (BodyValue tt) in
  execErr rt0 = None /\ rowsAffectedErr rt0 = None /\
  fst (handleMarkAsRead rt0 req api0) = JSONResponse StatusOK EmptyObject /\
  notifications (app (snd (handleMarkAsRead rt0 req api0))) = table0.
Proof.
  intros req.
  assert (Hnone : forall row, In row (notifications (app api0)) ->
            ~ (NID row = vars req "notificationID" /\ TargetUserID row = getUserID req)).
  { intros row Hin [Hid Ht]. simpl in Hin.
    destruct Hin as [<- | [<- | [<- | [<- | []]]]]; discriminate. }
  destruct (markNotificationAsRead_missing_is_noop
              Pushed unit rt0 req api0 eq_refl eq_refl Hnone)
    as (_ & Hresp & Htable & _).
  split; [reflexivity |]. split; [reflexivity |]. split; [exact Hresp | exact Htable].
Defined.

(** C6.  Deleting a notification whose row belongs to another user removes
    no row and changes no field of any row, and still succeeds: the store
    function returns no error and the endpoint answers 200. *)
Theorem deleteUserNotification_not_owned_is_noop :
  forall (WS B : Type) (rt : Runtime) (r : Request B) (st : API WS),
    execErr rt = None ->
    (forall row, In row (notifications (app st)) ->
       NID row = vars r "notificationID" -> TargetUserID row <> getUserID r) ->
    deleteUserNotification rt (vars r "notificationID") (getUserID r)
      (notifications (app st)) = (None, notifications (app st)) /\
    fst (handleDeleteNotification rt r st) = JSONResponse StatusOK EmptyObject /\
    notifications (app (snd (handleDeleteNotification rt r st)))
    = notifications (app st).
Proof.
  intros WS B rt r st Hexec Hother.
  assert (Hstore : deleteUserNotification rt (vars r "notificationID") (getUserID r)
                     (notifications (app st)) = (None, notifications (app st))).
  { unfold deleteUserNotification, Exec, sqlDelete. rewrite Hexec.
    rewrite delete_no_match; [reflexivity |].
    intros row Hin. apply eqIdTarget_false. apply Hother, Hin. }
  split; [exact Hstore |].
  unfold handleDeleteNotification, runHandler, audited, bind, tryErr, bind, onApp,
    DeleteUserNotification.
  rewrite Hstore. simpl. split; reflexivity.
Qed.

Lemma deleteUserNotification_not_owned_is_noop_witness :
  let req := mkRequest (mkSession "bob") (pathVars "" "c" "") (BodyValue tt) in
  execErr rt0 = None /\
  In (row "c" "mallory" false 300) (notifications (app api0)) /\
  fst (handleDeleteNotification rt0 req api0) = JSONResponse StatusOK EmptyObject /\
  notifications (app (snd (handleDeleteNotification rt0 req api0))) = table0.
Proof.
  intros req.
  assert (Hother : forall row, In row (notifications (app api0)) ->
            NID row = vars req "notificationID" -> TargetUserID row <> getUserID req).
  { intros row Hin Hid Ht. simpl in Hin.
    destruct Hin as [<- | [<- | [<- | [<- | []]]]]; discriminate. }
  destruct (deleteUserNotification_not_owned_is_noop
              Pushed unit rt0 req api0 eq_refl Hother)
    as (_ & Hresp & Htable).
  split; [reflexivity |]. split; [simpl; tauto |]. split; [exact Hresp | exact Htable].
Defined.

(** ** Create and broadcast *)

(** What the caller gets back does not depend on the adapter or on the
    adapter's state. *)
Lemma CreateAndBroadcastNotification_result_adapter_free
    {WS1 WS2 : Type} (ws1 : WSAdapter WS1) (ws2 : WSAdapter WS2) (rt : Runtime)
    (notification : UserNotification) (a1 : App WS1) (a2 : App WS2) :
  notifications a1 = notifications a2 ->
  fst (CreateAndBroadcastNotification ws1 rt notification a1)
  = fst (CreateAndBroadcastNotification ws2 rt notification a2).
Proof.
  intros Htable.
  unfold CreateAndBroadcastNotification, CreateUserNotification,
    broadcastUserNotification.
  rewrite Htable.
  destruct (createUserNotification rt notification (notifications a2))
    as [[created | e] t']; reflexivity.
Qed.

(** C9.  [CreateAndBroadcastNotification] calls the WebSocket adapter only
    after the insert succeeded.  When the insert fails the error is
    returned with no created entity, the table is as before and the adapter
    is not called.  When it succeeds the trace shows the insert and then one
    broadcast of the created row to its target, and the caller gets the
    created row without an error whatever the adapter did: the returned
    value is the same for every adapter and adapter state, and so is the
    response of the REST handler. *)
Theorem CreateAndBroadcastNotification_insert_then_broadcast :
  forall (WS : Type) (wsAdapter : WSAdapter WS) (rt : Runtime)
         (notification : UserNotification) (a : App WS),
    match createUserNotification rt notification (notifications a) with
    | (Err e, t') =>
        t' = notifications a /\
        CreateAndBroadcastNotification wsAdapter rt notification a
        = (Err e,
           mkApp (users a) (notifications a) (ws a)
                 (calls a ++ [CallCreateUserNotification (Err e)])%list)
    | (Ok created, t') =>
        In created t' /\
        CreateAndBroadcastNotification wsAdapter rt notification a
        = (Ok created,
           mkApp (users a) t'
                 (fst (BroadcastUserNotification wsAdapter
                         (TargetUserID notification) created (ws a)))
                 (calls a ++ [CallCreateUserNotification (Ok created);
                              CallBroadcastUserNotification
                                (TargetUserID notification) created])%list)
    end /\
    (forall (WS' : Type) (wsAdapter' : WSAdapter WS') (a' : App WS'),
        notifications a' = notifications a ->
        fst (CreateAndBroadcastNotification wsAdapter' rt notification a')
        = fst (CreateAndBroadcastNotification wsAdapter rt notification a)) /\
    (forall (wsAdapter' : WSAdapter WS) (r : Request UserNotification) (st : API WS),
        fst (handleCreateNotification wsAdapter' rt r st)
        = fst (handleCreateNotification wsAdapter rt r st)).
Proof.
  intros WS wsAdapter rt notification a. split; [| split].
  - unfold CreateAndBroadcastNotification, CreateUserNotification,
      broadcastUserNotification, createUserNotification, Exec, sqlInsert.
    destruct (execErr rt) as [e |]; simpl.
    + split; reflexivity.
    + destruct (existsb _ (notifications a)); simpl.
      * split; reflexivity.
      * split.
        -- apply in_or_app. right. left. reflexivity.
        -- destruct (BroadcastUserNotification wsAdapter _ _ (ws a)) as [w delivered].
           unfold withWS, withNotifications, logCall. simpl.
           rewrite <- app_assoc. reflexivity.
  - intros WS' wsAdapter' a' Htable.
    apply CreateAndBroadcastNotification_result_adapter_free, Htable.
  - intros wsAdapter' r st.
    unfold handleCreateNotification, runHandler, bind, readBody.
    destruct (body r) as [e | e | n]; try reflexivity.
    unfold audited, try, bind, onApp. simpl.
    pose proof (CreateAndBroadcastNotification_result_adapter_free
                  wsAdapter' wsAdapter rt n (app st) (app st) eq_refl) as Hsame.
    destruct (CreateAndBroadcastNotification wsAdapter' rt n (app st)) as [r1 a1].
    destruct (CreateAndBroadcastNotification wsAdapter rt n (app st)) as [r2 a2].
    simpl in Hsame. subst r2. destruct r1; reflexivity.
Qed.

Lemma CreateAndBroadcastNotification_insert_then_broadcast_witness :
  fst (CreateAndBroadcastNotification wsBroken rt0 (assignedBob false) (app api0))
  = fst (CreateAndBroadcastNotification wsConnected rt0 (assignedBob false) (app api0))
  /\ calls (snd (CreateAndBroadcastNotification wsConnected rtDown (assignedBob false)
                   (app api0)))
     = [CallCreateUserNotification (Err (ErrOther "connection refused"))].
Proof.
  split.
  - apply (CreateAndBroadcastNotification_insert_then_broadcast
             Pushed wsConnected rt0 (assignedBob false) (app api0)).
    reflexivity.
  - reflexivity.
Defined.

(** ** Admin handlers *)

Lemma Contains_empty (p : string) : strings.Contains p "" = true.
Proof.
  unfold strings.Contains, strings.Index.
  destruct p as [| c p]; reflexivity.
Qed.

(** C10.  In [handleAdminSetPassword] the "password is required" branch is
    dead: [strings.Contains p ""] holds for every [p], so every decoded
    password, the empty one included, is forwarded to [UpdateUserPassword]
    and the response is that call's outcome. *)
Theorem handleAdminSetPassword_forwards_every_password :
  forall (WS : Type) (uf : UserFuncs) (sess : Session) (vs : string -> string)
         (p : string) (st : API WS),
    strings.Contains p "" = true /\
    handleAdminSetPassword uf
      (mkRequest sess vs (BodyValue (AdminSetPasswordData.mk p))) st
    = (let '(e, a') := appUpdateUserPassword uf (vs "username") p (app st) in
       (match e with
        | None => JSONResponse StatusOK EmptyObject
        | Some err => ErrorResponse err
        end,
        mkAPI a' (permissions st)
          (audit st ++ [mkAuditRecord LevelAuth "adminSetPassword"
                          [("username", vs "username")]
                          (match e with None => true | Some _ => false end)])%list)).
Proof.
  intros WS uf sess vs p st. split; [apply Contains_empty |].
  unfold handleAdminSetPassword, runHandler, bind, readBody, audited. simpl.
  rewrite Contains_empty. simpl.
  unfold tryErr, bind, onApp. simpl.
  destruct (appUpdateUserPassword uf (vs "username") p (app st)) as [[err |] a'];
    reflexivity.
Qed.

Lemma hasPermissionTo_run {WS : Type} (uf : UserFuncs) sess (st : API WS) :
  hasPermissionTo uf (UserID sess) PermissionManageSystem st
  = (inr (managesSystem uf sess st), afterCheck uf sess st).
Proof.
  unfold hasPermissionTo, managesSystem, afterCheck.
  destruct (HasPermissionTo _ _ _ _) as [b svc]. reflexivity.
Qed.

Ltac run_gate H :=
  unfold handleAdminGetAllUsers, handleAdminGetUser, handleAdminUpdateUser,
    handleAdminDeleteUser, runHandler, bind; simpl session;
  rewrite hasPermissionTo_run, H; simpl.

(** C7 (as amended).  A DELETE on /admin/users/{userID} whose path user is
    the caller's own account is always rejected and deletes nobody: the app
    state (user table and call trace) is unchanged, so [DeleteUser] was not
    invoked.  The rejection is the bad-request error when the caller passes
    the manage-system check, and the authorization failure otherwise. *)
Theorem handleAdminDeleteUser_self_rejected :
  forall (WS B : Type) (uf : UserFuncs) (r : Request B) (st : API WS),
    vars r "userID" = UserID (session r) ->
    fst (handleAdminDeleteUser uf r st)
    = ErrorResponse
        (if managesSystem uf (session r) st
         then ErrBadRequest "cannot delete yourself"
         else ErrUnauthorized "not authorized to access admin panel") /\
    app (snd (handleAdminDeleteUser uf r st)) = app st.
Proof.
  intros WS B uf r st Hself.
  destruct (managesSystem uf (session r) st) eqn:Hadmin.
  - run_gate Hadmin. unfold audited. rewrite Hself, String.eqb_refl. simpl.
    split; reflexivity.
  - run_gate Hadmin. split; reflexivity.
Qed.

Lemma handleAdminDeleteUser_self_rejected_witness :
  let req := mkRequest (mkSession "alice") (pathVars "alice" "" "") (BodyValue tt) in
  vars req "userID" = UserID (session req) /\
  fst (handleAdminDeleteUser listUsers req api0)
  = ErrorResponse (ErrBadRequest "cannot delete yourself") /\
  users (app (snd (handleAdminDeleteUser listUsers req api0))) = [alice; bob; mallory].
Proof.
  intros req.
  destruct (handleAdminDeleteUser_self_rejected Pushed unit listUsers req api0 eq_refl)
    as [Hresp Happ].
  split; [reflexivity |]. split.
  - exact Hresp.
  - rewrite Happ. reflexivity.
Defined.

(** C7 refuted as stated.  bob is not the admin; his DELETE on his own
    account is turned down by the permission check, with the authorization
    failure and not with a bad-request error. *)
Lemma handleAdminDeleteUser_self_non_admin_counterexample :
  let req := mkRequest (mkSession "bob") (pathVars "bob" "" "") (BodyValue tt) in
  vars req "userID" = UserID (session req) /\
  fst (handleAdminDeleteUser listUsers req api0)
  = ErrorResponse (ErrUnauthorized "not authorized to access admin panel") /\
  (forall msg, fst (handleAdminDeleteUser listUsers req api0)
               <> ErrorResponse (ErrBadRequest msg)).
Proof.
  intros req. split; [reflexivity |]. split; [reflexivity |].
  intros msg. discriminate.
Qed.

(** C8.  For a caller who fails the manage-system check, each of the four
    admin routes answers with the authorization failure and leaves the app
    state untouched: no app-layer call is made (the trace is as before), the
    user table is as before, no audit record is written.  The outcome does
    not depend on the request body: any two bodies give the same response
    and state. *)
Theorem admin_routes_deny_non_admin :
  forall (WS : Type) (uf : UserFuncs) (sess : Session) (vs : string -> string)
         (st : API WS),
    managesSystem uf sess st = false ->
    (forall B (b : Body B),
        handleAdminGetAllUsers uf (mkRequest sess vs b) st = denied uf sess st) /\
    (forall B (b : Body B),
        handleAdminGetUser uf (mkRequest sess vs b) st = denied uf sess st) /\
    (forall b : Body AdminUpdateUserData.t,
        handleAdminUpdateUser uf (mkRequest sess vs b) st = denied uf sess st) /\
    (forall B (b : Body B),
        handleAdminDeleteUser uf (mkRequest sess vs b) st = denied uf sess st) /\
    (forall B1 B2 (b1 : Body B1) (b2 : Body B2),
        handleAdminGetAllUsers uf (mkRequest sess vs b1) st
        = handleAdminGetAllUsers uf (mkRequest sess vs b2) st /\
        handleAdminGetUser uf (mkRequest sess vs b1) st
        = handleAdminGetUser uf (mkRequest sess vs b2) st /\
        handleAdminDeleteUser uf (mkRequest sess vs b1) st
        = handleAdminDeleteUser uf (mkRequest sess vs b2) st) /\
    (forall b1 b2 : Body AdminUpdateUserData.t,
        handleAdminUpdateUser uf (mkRequest sess vs b1) st
        = handleAdminUpdateUser uf (mkRequest sess vs b2) st).
Proof.
  intros WS uf sess vs st Hdenied.
  assert (HgetAll : forall B (b : Body B),
             handleAdminGetAllUsers uf (mkRequest sess vs b) st = denied uf sess st)
    by (intros; run_gate Hdenied; reflexivity).
  assert (Hget : forall B (b : Body B),
             handleAdminGetUser uf (mkRequest sess vs b) st = denied uf sess st)
    by (intros; run_gate Hdenied; reflexivity).
  assert (Hupdate : forall b : Body AdminUpdateUserData.t,
             handleAdminUpdateUser uf (mkRequest sess vs b) st = denied uf sess st)
    by (intros; run_gate Hdenied; reflexivity).
  assert (Hdelete : forall B (b : Body B),
             handleAdminDeleteUser uf (mkRequest sess vs b) st = denied uf sess st)
    by (intros; run_gate Hdenied; reflexivity).
  split; [exact HgetAll |]. split; [exact Hget |]. split; [exact Hupdate |].
  split; [exact Hdelete |]. split.
  - intros B1 B2 b1 b2.
    rewrite (HgetAll B1 b1), (HgetAll B2 b2), (Hget B1 b1), (Hget B2 b2),
      (Hdelete B1 b1), (Hdelete B2 b2).
    repeat split.
  - intros b1 b2. rewrite (Hupdate b1), (Hupdate b2). reflexivity.
Qed.

Lemma admin_routes_deny_non_admin_witness :
  managesSystem listUsers (mkSession "bob") api0 = false /\
  handleAdminUpdateUser listUsers
    (mkRequest (mkSession "bob") (pathVars "alice" "" "")
       (BodyValue (AdminUpdateUserData.mk "root" "" "secret"))) api0
  = handleAdminUpdateUser listUsers
      (mkRequest (mkSession "bob") (pathVars "alice" "" "")
         (BodyUnmarshalError (ErrOther "unexpected end of JSON input"))) api0 /\
  fst (handleAdminDeleteUser listUsers
         (mkRequest (mkSession "bob") (pathVars "alice" "" "") (BodyValue tt)) api0)
  = ErrorResponse (ErrUnauthorized "not authorized to access admin panel").
Proof.
  destruct (admin_routes_deny_non_admin Pushed listUsers (mkSession "bob")
              (pathVars "alice" "" "") api0 eq_refl)
    as (_ & _ & _ & Hdelete & _ & Hupdate).
  split; [reflexivity |]. split.
  - apply Hupdate.
  - rewrite (Hdelete unit (BodyValue tt)). reflexivity.
Defined.

(** ** The create-notification endpoint *)

(** C2 (evaluated on the code).  [handleCreateNotification] never looks at
    the caller: two requests that differ only in their session give the
    same response and state.  mallory, who fails the manage-system check
    and is neither the actor nor the target named in the body, posts a
    notification for bob: it is inserted, pushed to bob and answered with
    200, and the permission service was not consulted (its cache is still
    empty). *)
Theorem handleCreateNotification_ignores_caller :
  (forall (WS : Type) (wsAdapter : WSAdapter WS) (rt : Runtime)
          (s1 s2 : Session) (vs : string -> string) (b : Body UserNotification)
          (st : API WS),
      handleCreateNotification wsAdapter rt (mkRequest s1 vs b) st
      = handleCreateNotification wsAdapter rt (mkRequest s2 vs b) st) /\
  (let req := mkRequest (mkSession "mallory") (pathVars "" "" "")
                        (BodyValue (assignedBob false)) in
   let created := mkUserNotification "n1" "bob" "alice" "Alice" "assigned" "C1"
                                     "Card one" "BRD1" false 1000 1000 in
   let res := handleCreateNotification wsConnected rt0 req api0 in
   managesSystem listUsers (mkSession "mallory") api0 = false /\
   fst res = JSONResponse StatusOK (NotificationJSON created) /\
   notifications (app (snd res)) = (table0 ++ [created])%list /\
   ws (app (snd res)) = [("bob", created)] /\
   calls (app (snd res))
   = [CallCreateUserNotification (Ok created);
      CallBroadcastUserNotification "bob" created] /\
   permissions (snd res) = New).
Proof.
  split.
  - intros. reflexivity.
  - cbv zeta. repeat split; reflexivity.
Qed.

(** C3 (evaluated on the code).  The store writes [ID], [CreateAt] and
    [UpdateAt] of a new notification but inserts and returns the [read]
    flag of the decoded body as it came.  A body with [read: true] yields a
    stored and returned row that is already read, where
    [NewUserNotification] on the same fields gives an unread one. *)
Theorem handleCreateNotification_keeps_body_read :
  (forall (rt : Runtime) (n : UserNotification) (t : Table),
      match createUserNotification rt n t with
      | (Ok created, t') => Read created = Read n /\ In created t'
      | (Err _, t') => t' = t
      end) /\
  (let req := mkRequest (mkSession "alice") (pathVars "" "" "")
                        (BodyValue (assignedBob true)) in
   let created := mkUserNotification "n1" "bob" "alice" "Alice" "assigned" "C1"
                                     "Card one" "BRD1" true 1000 1000 in
   let res := handleCreateNotification wsConnected rt0 req api0 in
   fst res = JSONResponse StatusOK (NotificationJSON created) /\
   In created (notifications (app (snd res))) /\
   Read created = true /\
   Read (NewUserNotification "n1" 1000 "bob" "alice" "Alice" "assigned" "C1"
                             "Card one" "BRD1") = false).
Proof.
  split.
  - intros rt n t. unfold createUserNotification, Exec, sqlInsert.
    destruct (execErr rt) as [e |]; [reflexivity |].
    destruct (existsb _ t); [reflexivity |]. simpl. split; [reflexivity |].
    apply in_or_app. right. left. reflexivity.
  - cbv zeta. repeat split; try reflexivity.
    simpl. tauto.
Qed.

(* ================================================================== *)
(** * Further properties *)

(** ** Local permissions: cache, team, channel and board *)

(** X1.  A manage-system check made while the user store is empty or
    failing is cached like any other: the service is marked resolved with
    the admin ID it had (empty on a new service), and from then on a
    manage-system check passes exactly for that ID whatever the store holds
    by then. *)
Theorem HasPermissionTo_unresolved_lookup_is_cached :
  forall (s : Service) (lookup : Result (list User)) (userID : string),
    firstUserDone s = false ->
    lookup = Ok [] \/ (exists e, lookup = Err e) ->
    let s' := snd (HasPermissionTo s lookup userID PermissionManageSystem) in
    s' = mkService (firstUserID s) true /\
    (forall later uid,
        HasPermissionTo s' later uid PermissionManageSystem
        = (String.eqb uid (firstUserID s), s')).
Proof.
  intros s lookup userID Hfresh Hlookup s'.
  assert (Hs' : s' = mkService (firstUserID s) true).
  { subst s'. unfold HasPermissionTo. rewrite String.eqb_refl, Hfresh. simpl.
    destruct Hlookup as [-> | [e ->]]; reflexivity. }
  split; [exact Hs' |].
  intros later uid. rewrite Hs'.
  exact (HasPermissionTo_cached (mkService (firstUserID s) true) later uid eq_refl).
Qed.

Lemma HasPermissionTo_unresolved_lookup_is_cached_witness :
  let s' := snd (HasPermissionTo New (Ok []) "alice" PermissionManageSystem) in
  s' = mkService "" true /\
  HasPermissionTo s' (Ok [alice; bob]) "alice" PermissionManageSystem = (false, s') /\
  HasPermissionTo s' (Ok [alice; bob]) "" PermissionManageSystem = (true, s').
Proof.
  destruct (HasPermissionTo_unresolved_lookup_is_cached New (Ok []) "alice"
              eq_refl (or_introl eq_refl)) as [Hs' Hlater].
  split; [exact Hs' |]. split.
  - apply (Hlater (Ok [alice; bob]) "alice").
  - apply (Hlater (Ok [alice; bob]) "").
Defined.

(** X2.  Every state a service reaches from [New] is either [New] itself
    or resolved, and a resolved service never changes again: no call of
    [HasPermissionTo], for whatever store, user and permission, alters its
    cached admin. *)
Theorem reachable_service_resolved_once :
  forall s : Service,
    reachable s ->
    s = New \/
    (firstUserDone s = true /\
     forall lookup uid p, snd (HasPermissionTo s lookup uid p) = s).
Proof.
  assert (Hstable : forall s, firstUserDone s = true ->
            forall lookup uid p, snd (HasPermissionTo s lookup uid p) = s).
  { intros s Hdone lookup uid p. unfold HasPermissionTo.
    destruct (String.eqb (Id p) (Id PermissionManageSystem)); [| reflexivity].
    rewrite Hdone. reflexivity. }
  assert (Hdone : forall s lookup uid p,
            firstUserDone (snd (HasPermissionTo s lookup uid p)) = true \/
            snd (HasPermissionTo s lookup uid p) = s).
  { intros s lookup uid p. unfold HasPermissionTo.
    destruct (String.eqb (Id p) (Id PermissionManageSystem)); [| right; reflexivity].
    destruct (firstUserDone s); [right; reflexivity | left; reflexivity]. }
  intros s Hreach. induction Hreach as [| s lookup uid p Hreach IH].
  - left. reflexivity.
  - destruct IH as [-> | [Hd Hfix]].
    + destruct (Hdone New lookup uid p) as [Hd | ->].
      * right. split; [exact Hd | apply Hstable, Hd].
      * left. reflexivity.
    + rewrite Hfix. right. split; [exact Hd | exact Hfix].
Qed.

Lemma reachable_service_resolved_once_witness :
  let s := snd (HasPermissionTo New (Ok [alice; bob]) "bob" PermissionManageSystem) in
  s = New \/
  (firstUserDone s = true /\
   forall lookup uid p, snd (HasPermissionTo s lookup uid p) = s).
Proof.
  apply reachable_service_resolved_once.
  apply reachable_call, reachable_New.
Defined.

Section BoardCheck.
Import scoped.

Lemma effective_level (m : BoardMember) :
  schemeLevel (applyMinimumRole m)
  = Nat.max (schemeLevel m) (roleRank (MinimumRole m)).
Proof.
  destruct m as [role a e c v].
  unfold applyMinimumRole, roleRank, schemeLevel. simpl.
  destruct (String.eqb role "admin"); [destruct a, e, c, v; reflexivity |].
  destruct (String.eqb role "editor"); [destruct a, e, c, v; reflexivity |].
  destruct (String.eqb role "commenter"); [destruct a, e, c, v; reflexivity |].
  destruct (String.eqb role "viewer"); destruct a, e, c, v; reflexivity.
Qed.

Lemma granted_by_level (m : BoardMember) (p : PermissionRef) :
  match p with
  | PermissionManageBoardType | PermissionDeleteBoard
  | PermissionManageBoardRoles | PermissionShareBoard
  | PermissionDeleteOthersComments => SchemeAdmin m
  | PermissionManageBoardCards | PermissionManageBoardProperties =>
      SchemeAdmin m || SchemeEditor m
  | PermissionCommentBoardCards =>
      SchemeAdmin m || SchemeEditor m || SchemeCommenter m
  | PermissionViewBoard =>
      SchemeAdmin m || SchemeEditor m || SchemeCommenter m || SchemeViewer m
  | OtherPermission _ => false
  end
  = ((1 <=? permissionLevel p)%nat && (permissionLevel p <=? schemeLevel m)%nat).
Proof.
  unfold schemeLevel.
  destruct p; simpl permissionLevel;
    destruct (SchemeAdmin m), (SchemeEditor m), (SchemeCommenter m), (SchemeViewer m);
    reflexivity.
Qed.

Lemma schemeLevel_mono (m m' : BoardMember) :
  memberLe m m' -> (schemeLevel m <= schemeLevel m')%nat.
Proof.
  intros (_ & Ha & He & Hc & Hv). unfold schemeLevel.
  destruct (SchemeAdmin m); [rewrite (Ha eq_refl); lia |].
  destruct (SchemeEditor m);
    [rewrite (He eq_refl); destruct (SchemeAdmin m'); lia |].
  destruct (SchemeCommenter m);
    [rewrite (Hc eq_refl); destruct (SchemeAdmin m'), (SchemeEditor m'); lia |].
  destruct (SchemeViewer m);
    [rewrite (Hv eq_refl);
     destruct (SchemeAdmin m'), (SchemeEditor m'), (SchemeCommenter m'); lia |].
  lia.
Qed.

End BoardCheck.

Lemma board_granted_iff_level :
  forall (GetMemberForBoard : string -> string -> scoped.MemberLookup)
         (userID boardID : string) (permission : option scoped.PermissionRef),
    scoped.HasPermissionToBoard GetMemberForBoard userID boardID permission = true
    <->
    userID <> "" /\ boardID <> "" /\
    exists p member,
      permission = Some p /\
      GetMemberForBoard boardID userID = scoped.Member member /\
      (1 <= permissionLevel p)%nat /\
      (permissionLevel p
       <= Nat.max (schemeLevel member) (roleRank (scoped.MinimumRole member)))%nat.
Proof.
  intros store userID boardID permission. unfold scoped.HasPermissionToBoard.
  destruct permission as [p |].
  2: { split; [discriminate |]. intros (_ & _ & p & m & Hp & _). discriminate. }
  destruct (String.eqb_spec userID "") as [Hu | Hu]; simpl.
  { split; [discriminate | intros [H _]; contradiction]. }
  destruct (String.eqb_spec boardID "") as [Hb | Hb]; simpl.
  { split; [discriminate | intros (_ & H & _); contradiction]. }
  destruct (store boardID userID) as [member | | e].
  - rewrite granted_by_level, effective_level, andb_true_iff,
      Nat.leb_le, Nat.leb_le.
    split.
    + intros [H1 H2]. repeat split; auto. exists p, member. auto.
    + intros (_ & _ & p' & m' & Hp & Hm & H1 & H2).
      inversion Hp; subst p'. inversion Hm; subst m'. auto.
  - split; [discriminate |]. intros (_ & _ & p' & m' & _ & Hm & _). discriminate.
  - split; [discriminate |]. intros (_ & _ & p' & m' & _ & Hm & _). discriminate.
Qed.

(** X3.  [HasPermissionToBoard] decides by levels.  It grants a permission
    exactly when user and board IDs are non-empty, the permission is one of
    the nine board permissions of package model (the very objects: any
    other permission object is refused), the user has a member row on the
    board, and the level of the permission (view 1, comment 2, manage cards
    or properties 3, the five admin permissions 4) does not exceed the
    higher of the row's best scheme flag and the board's minimum role. *)
Theorem HasPermissionToBoard_by_level :
  forall (GetMemberForBoard : string -> string -> scoped.MemberLookup)
         (userID boardID : string) (permission : option scoped.PermissionRef),
    scoped.HasPermissionToBoard GetMemberForBoard userID boardID permission = true
    <->
    userID <> "" /\ boardID <> "" /\
    exists p member,
      permission = Some p /\
      GetMemberForBoard boardID userID = scoped.Member member /\
      (1 <= permissionLevel p)%nat /\
      (permissionLevel p
       <= Nat.max (schemeLevel member) (roleRank (scoped.MinimumRole member)))%nat.
Proof.
  exact board_granted_iff_level.
Qed.

(** X4.  Board access is monotone.  If a member row grants a permission,
    then a row with at least the same minimum role and scheme flags grants
    every board permission of the same or a lower level. *)
Theorem HasPermissionToBoard_monotone :
  forall (store store' : string -> string -> scoped.MemberLookup)
         (userID boardID : string) (p q : scoped.PermissionRef)
         (m m' : scoped.BoardMember),
    store boardID userID = scoped.Member m ->
    store' boardID userID = scoped.Member m' ->
    memberLe m m' ->
    (1 <= permissionLevel q <= permissionLevel p)%nat ->
    scoped.HasPermissionToBoard store userID boardID (Some p) = true ->
    scoped.HasPermissionToBoard store' userID boardID (Some q) = true.
Proof.
  intros store store' userID boardID p q m m' Hm Hm' Hle Hpq Hgranted.
  apply board_granted_iff_level in Hgranted.
  destruct Hgranted as (Hu & Hb & p0 & m0 & Hp0 & Hm0 & H1 & H2).
  inversion Hp0; subst p0. rewrite Hm in Hm0. inversion Hm0; subst m0.
  apply board_granted_iff_level. repeat split; auto.
  exists q, m'. repeat split; auto; try lia.
  pose proof (schemeLevel_mono m m' Hle) as Hs.
  destruct Hle as (Hr & _). lia.
Qed.

Lemma HasPermissionToBoard_monotone_witness :
  let viewer := scoped.mkBoardMember "viewer" false true false false in
  let editor := scoped.mkBoardMember "editor" false true false true in
  scoped.HasPermissionToBoard (fun _ _ => scoped.Member viewer) "bob" "BRD1"
    (Some scoped.PermissionManageBoardCards) = true /\
  scoped.HasPermissionToBoard (fun _ _ => scoped.Member editor) "bob" "BRD1"
    (Some scoped.PermissionCommentBoardCards) = true.
Proof.
  intros viewer editor. split; [reflexivity |].
  apply (HasPermissionToBoard_monotone
           (fun _ _ => scoped.Member viewer) (fun _ _ => scoped.Member editor)
           "bob" "BRD1" scoped.PermissionManageBoardCards
           scoped.PermissionCommentBoardCards viewer editor eq_refl eq_refl).
  - unfold memberLe. simpl. repeat split; auto. unfold roleRank. simpl. lia.
  - simpl. lia.
  - reflexivity.
Defined.

(** X5.  Team and channel checks.  [HasPermissionToTeam] never grants a
    permission carrying the manage-team Id, to anyone; whatever it grants
    is granted by [HasPermissionToChannel] for the same arguments; and the
    channel check grants exactly when both IDs are non-empty and the
    permission is not nil. *)
Theorem team_and_channel_checks :
  forall (PermissionManageTeam : Permission) (userID scopeID : string)
         (permission : option Permission),
    (forall q, Id q = Id PermissionManageTeam ->
               scoped.HasPermissionToTeam PermissionManageTeam userID scopeID (Some q)
               = false) /\
    (scoped.HasPermissionToTeam PermissionManageTeam userID scopeID permission = true ->
     scoped.HasPermissionToChannel userID scopeID permission = true) /\
    (scoped.HasPermissionToChannel userID scopeID permission = true
     <-> userID <> "" /\ scopeID <> "" /\ permission <> None).
Proof.
  intros PMT userID scopeID permission.
  unfold scoped.HasPermissionToTeam, scoped.HasPermissionToChannel.
  split; [| split].
  - intros q Hq. rewrite Hq, String.eqb_refl.
    destruct (String.eqb userID "" || String.eqb scopeID ""); reflexivity.
  - destruct permission as [p |]; [| discriminate].
    destruct (String.eqb userID "" || String.eqb scopeID ""); [discriminate | auto].
  - destruct permission as [p |].
    + destruct (String.eqb_spec userID ""), (String.eqb_spec scopeID ""); simpl;
        split; try discriminate; try tauto.
      intros _. repeat split; auto. discriminate.
    + split; [discriminate | intros (_ & _ & H); congruence].
Qed.

(** ** Reading the user_notifications table *)

Section Select.
Import sqlselect.

Lemma insertDesc_perm r l : Permutation (insertDesc r l) (r :: l).
Proof.
  induction l as [| x l IH]; simpl; [reflexivity |].
  destruct (NCreateAt r <? NCreateAt x); [| reflexivity].
  rewrite IH. apply perm_swap.
Qed.

Lemma orderByCreateAtDesc_perm l : Permutation (orderByCreateAtDesc l) l.
Proof.
  induction l as [| x l IH]; simpl; [reflexivity |].
  rewrite insertDesc_perm. apply perm_skip, IH.
Qed.

Lemma insertDesc_sorted r l :
  StronglySorted newer l -> StronglySorted newer (insertDesc r l).
Proof.
  induction l as [| x l IH]; intros Hs; simpl.
  - constructor; constructor.
  - inversion Hs as [| ? ? Hs' Hall]; subst.
    destruct (Z.ltb_spec (NCreateAt r) (NCreateAt x)) as [Hlt | Hge].
    + constructor; [apply IH, Hs' |].
      rewrite insertDesc_perm. constructor; [unfold newer; lia | exact Hall].
    + constructor; [exact Hs |].
      constructor; [unfold newer; lia |].
      eapply Forall_impl; [| exact Hall]. unfold newer. intros y Hy. lia.
Qed.

Lemma orderByCreateAtDesc_sorted l : StronglySorted newer (orderByCreateAtDesc l).
Proof.
  induction l as [| x l IH]; simpl; [constructor | apply insertDesc_sorted, IH].
Qed.

Lemma StronglySorted_newestFirst l : StronglySorted newer l -> newestFirst l.
Proof.
  induction l as [| x l IH]; intros Hs i j a b Hij Hi Hj.
  - destruct i; discriminate.
  - inversion Hs as [| ? ? Hs' Hall]; subst.
    destruct j as [| j]; [lia |]. simpl in Hj.
    destruct i as [| i].
    + simpl in Hi. inversion Hi; subst a.
      apply nth_error_In in Hj. rewrite Forall_forall in Hall. apply Hall, Hj.
    + simpl in Hi. apply (IH Hs' i j a b); [lia | exact Hi | exact Hj].
Qed.

Lemma newestFirst_firstn n l : newestFirst l -> newestFirst (firstn n l).
Proof.
  intros Hl i j a b Hij Hi Hj.
  rewrite nth_error_firstn in Hi, Hj.
  destruct (i <? n)%nat; [| discriminate].
  destruct (j <? n)%nat; [| discriminate].
  exact (Hl i j a b Hij Hi Hj).
Qed.

Lemma In_firstn {A} n (l : list A) x : In x (firstn n l) -> In x l.
Proof.
  intros Hin. rewrite <- (firstn_skipn n l). apply in_or_app. left. exact Hin.
Qed.

Lemma fromRows_all_ok l : userNotificationFromRows (map Ok l) = Ok l.
Proof.
  induction l as [| x l IH]; simpl; [reflexivity | rewrite IH; reflexivity].
Qed.

Lemma filter_filter {A} (f g : A -> bool) l :
  filter g (filter f l) = filter (fun x => f x && g x) l.
Proof.
  induction l as [| x l IH]; simpl; [reflexivity |].
  destruct (f x); simpl; [destruct (g x); rewrite IH; reflexivity | exact IH].
Qed.

Lemma Permutation_filter {A} (f : A -> bool) l l' :
  Permutation l l' -> Permutation (filter f l) (filter f l').
Proof.
  induction 1 as [| x l l' _ IH | x y l | l l' l'' _ IH1 _ IH2]; simpl.
  - constructor.
  - destruct (f x); [apply perm_skip |]; exact IH.
  - destruct (f x), (f y); try reflexivity. apply perm_swap.
  - etransitivity; eassumption.
Qed.

(** The rows the statement selects before scanning. *)
Lemma selected_rows rt scan u limit t :
  execErr rt = None ->
  (forall r, scan r = Ok r) ->
  getUserNotifications rt scan u limit t
  = Ok (if 0 <? limit
        then firstn (Z.to_nat limit) (orderByCreateAtDesc (filter (eqTarget u) t))
        else orderByCreateAtDesc (filter (eqTarget u) t)).
Proof.
  intros Hexec Hscan. unfold getUserNotifications. rewrite Hexec.
  rewrite (map_ext scan Ok Hscan). apply fromRows_all_ok.
Qed.

Lemma getUserNotifications_fails rt scan u limit t e :
  execErr rt = Some e -> getUserNotifications rt scan u limit t = Err e.
Proof. intros H. unfold getUserNotifications. rewrite H. reflexivity. Qed.

End Select.

Lemma selected_rows_sound :
  forall (rt : Runtime) (scan : UserNotification -> Result UserNotification)
         (userID : string) (limit : Z) (t : Table) (rows : list UserNotification),
    (forall r, scan r = Ok r) ->
    sqlselect.getUserNotifications rt scan userID limit t = Ok rows ->
    (forall r, In r rows -> In r t /\ TargetUserID r = userID) /\
    newestFirst rows /\
    (0 < limit -> Z.of_nat (length rows) <= limit).
Proof.
  intros rt scan u limit t rows Hscan Hget.
  destruct (execErr rt) as [e |] eqn:Hexec.
  { rewrite (getUserNotifications_fails rt scan u limit t e Hexec) in Hget.
    discriminate. }
  rewrite (selected_rows rt scan u limit t Hexec Hscan) in Hget.
  inversion Hget as [Hrows]. clear Hget.
  pose proof (orderByCreateAtDesc_perm (filter (sqlselect.eqTarget u) t)) as Hperm.
  pose proof (StronglySorted_newestFirst _
                (orderByCreateAtDesc_sorted (filter (sqlselect.eqTarget u) t)))
    as Hsorted.
  assert (Hin : forall r,
             In r (sqlselect.orderByCreateAtDesc (filter (sqlselect.eqTarget u) t)) ->
             In r t /\ TargetUserID r = u).
  { intros r Hr. apply (Permutation_in _ Hperm) in Hr.
    apply filter_In in Hr. destruct Hr as [Hr Ht]. split; [exact Hr |].
    apply String.eqb_eq, Ht. }
  destruct (Z.ltb_spec 0 limit) as [Hpos | Hnon].
  - split; [| split].
    + intros r Hr. apply Hin. eapply In_firstn, Hr.
    + apply newestFirst_firstn, Hsorted.
    + intros _. rewrite length_firstn. lia.
  - split; [exact Hin | split; [exact Hsorted | lia]].
Qed.

(** X6.  What [getUserNotifications] returns is right: every returned row
    is a row of the table addressed to the asking user, the rows come
    newest first, and a positive limit bounds their number. *)
Theorem getUserNotifications_sound :
  forall (rt : Runtime) (scan : UserNotification -> Result UserNotification)
         (userID : string) (limit : Z) (t : Table) (rows : list UserNotification),
    (forall r, scan r = Ok r) ->
    sqlselect.getUserNotifications rt scan userID limit t = Ok rows ->
    (forall r, In r rows -> In r t /\ TargetUserID r = userID) /\
    newestFirst rows /\
    (0 < limit -> Z.of_nat (length rows) <= limit).
Proof.
  exact selected_rows_sound.
Qed.

Lemma getUserNotifications_sound_witness :
  exists rows,
    sqlselect.getUserNotifications rt0 fixtures.scanOk "bob" 2 table0 = Ok rows /\
    rows = [row "d" "bob" false 400; row "b" "bob" true 200] /\
    newestFirst rows.
Proof.
  exists [row "d" "bob" false 400; row "b" "bob" true 200].
  split; [reflexivity |]. split; [reflexivity |].
  apply (getUserNotifications_sound rt0 fixtures.scanOk "bob" 2 table0).
  - intros r. reflexivity.
  - reflexivity.
Defined.




(** ** How the store operations compose *)

Section Compose.
Import sqlselect.

Lemma unread_of_user u t :
  filter (eqTargetUnread u) t
  = filter (fun r => negb (Read r)) (filter (eqTarget u) t).
Proof.
  rewrite filter_filter. apply filter_ext. intros r.
  unfold eqTargetUnread, eqTarget. destruct (Read r); reflexivity.
Qed.

Lemma update_keeps_other_targets set where_ v t :
  (forall r, TargetUserID (set r) = TargetUserID r) ->
  (forall r, where_ r = true -> TargetUserID r <> v) ->
  filter (eqTarget v) (map (fun r => if where_ r then set r else r) t)
  = filter (eqTarget v) t.
Proof.
  intros Hset Hwhere. induction t as [| r t IH]; simpl; [reflexivity |].
  destruct (where_ r) eqn:Hw.
  - assert (H1 : eqTarget v r = false)
      by (apply String.eqb_neq; exact (Hwhere r Hw)).
    assert (H2 : eqTarget v (set r) = false)
      by (unfold eqTarget; rewrite Hset; exact H1).
    rewrite H1, H2. exact IH.
  - rewrite IH. reflexivity.
Qed.

Lemma delete_keeps_other_targets where_ v t :
  (forall r, where_ r = true -> TargetUserID r <> v) ->
  filter (eqTarget v) (filter (fun r => negb (where_ r)) t)
  = filter (eqTarget v) t.
Proof.
  intros Hwhere. rewrite filter_filter. apply filter_ext_in. intros r _.
  destruct (where_ r) eqn:Hw; simpl; [| reflexivity].
  unfold eqTarget. symmetry. apply String.eqb_neq. exact (Hwhere r Hw).
Qed.

Lemma eqIdTarget_target nid uid r :
  eqIdTarget nid uid r = true -> NID r = nid /\ TargetUserID r = uid.
Proof.
  unfold eqIdTarget. rewrite andb_true_iff, !String.eqb_eq. auto.
Qed.

Lemma map_NID_update (set : UserNotification -> UserNotification)
    (where_ : UserNotification -> bool) (t : Table) :
  (forall r, NID (set r) = NID r) ->
  map NID (map (fun r => if where_ r then set r else r) t) = map NID t.
Proof.
  intros Hset. rewrite map_map. apply map_ext. intros r.
  destruct (where_ r); [apply Hset | reflexivity].
Qed.

Lemma NoDup_map_filter {A B} (f : A -> B) (p : A -> bool) l :
  NoDup (map f l) -> NoDup (map f (filter p l)).
Proof.
  induction l as [| x l IH]; simpl; intros Hnd; [constructor |].
  inversion Hnd as [| ? ? Hnotin Hnd']; subst.
  destruct (p x); simpl; [| apply IH, Hnd'].
  constructor; [| apply IH, Hnd'].
  intros Hin. apply Hnotin. apply in_map_iff in Hin.
  destruct Hin as (y & Hy & Hyin). apply in_map_iff. exists y.
  split; [exact Hy |]. apply filter_In in Hyin. tauto.
Qed.

Lemma existsb_NID_false row t :
  existsb (fun r => String.eqb (NID r) (NID row)) t = false ->
  ~ In (NID row) (map NID t).
Proof.
  intros Hex Hin. apply in_map_iff in Hin. destruct Hin as (y & Hy & Hyin).
  assert (Htrue : existsb (fun r => String.eqb (NID r) (NID row)) t = true).
  { apply existsb_exists. exists y. split; [exact Hyin |]. apply String.eqb_eq, Hy. }
  congruence.
Qed.

End Compose.

Lemma unread_count_agrees_with_list_general
    (rt : Runtime) (scan : UserNotification -> Result UserNotification)
    (userID : string) (t : Table) :
  execErr rt = None ->
  (forall r, scan r = Ok r) ->
  exists rows,
    sqlselect.getUserNotifications rt scan userID 0 t = Ok rows /\
    getUnreadNotificationCount rt userID t
    = Ok (Z.of_nat (length (filter (fun r => negb (Read r)) rows))).
Proof.
  intros Hexec Hscan.
  rewrite (selected_rows rt scan userID 0 t Hexec Hscan). simpl (0 <? 0).
  eexists. split; [reflexivity |].
  unfold getUnreadNotificationCount, sqlCount. rewrite Hexec, unread_of_user.
  do 2 f_equal. apply Permutation_length, Permutation_filter.
  symmetry. apply orderByCreateAtDesc_perm.
Qed.

(** X9.  The unread count agrees with the list.  On a working database
    the number [getUnreadNotificationCount] reports for a user is the
    number of unread rows in the user's unlimited notification list. *)
Theorem unread_count_agrees_with_list :
  forall (rt : Runtime) (scan : UserNotification -> Result UserNotification)
         (userID : string) (t : Table),
    execErr rt = None ->
    (forall r, scan r = Ok r) ->
    exists rows,
      sqlselect.getUserNotifications rt scan userID 0 t = Ok rows /\
      getUnreadNotificationCount rt userID t
      = Ok (Z.of_nat (length (filter (fun r => negb (Read r)) rows))).
Proof.
  intros rt scan u t Hexec Hscan.
  exact (unread_count_agrees_with_list_general rt scan u t Hexec Hscan).
Qed.

Lemma unread_count_agrees_with_list_witness :
  exists rows,
    sqlselect.getUserNotifications rt0 fixtures.scanOk "bob" 0 table0 = Ok rows /\
    getUnreadNotificationCount rt0 "bob" table0
    = Ok (Z.of_nat (length (filter (fun r => negb (Read r)) rows))).
Proof.
  apply (unread_count_agrees_with_list rt0 fixtures.scanOk "bob" table0).
  - reflexivity.
  - intros r. reflexivity.
Defined.

(** X10.  After mark-all-read for [u] on a working database every row in
    the list of [u] is read, while the list and the unread count of any
    other user are exactly what they were. *)
Theorem markAll_then_list :
  forall (rt rt' : Runtime) (scan : UserNotification -> Result UserNotification)
         (u v : string) (limit : Z) (t : Table),
    execErr rt = None ->
    (forall r, scan r = Ok r) ->
    let t' := snd (markAllNotificationsAsRead rt u t) in
    (forall rows, sqlselect.getUserNotifications rt' scan u limit t' = Ok rows ->
                  forall r, In r rows -> Read r = true) /\
    (v <> u ->
     sqlselect.getUserNotifications rt' scan v limit t'
     = sqlselect.getUserNotifications rt' scan v limit t /\
     getUnreadNotificationCount rt' v t' = getUnreadNotificationCount rt' v t).
Proof.
  intros rt rt' scan u v limit t Hexec Hscan t'.
  assert (Ht' : t' = map (fun x => if eqTargetUnread u x
                                   then setReadAt (GetMillis rt) x else x) t).
  { subst t'. unfold markAllNotificationsAsRead, Exec, sqlUpdate.
    rewrite Hexec. reflexivity. }
  split.
  - intros rows Hget r Hr.
    destruct (selected_rows_sound rt' scan u limit t' rows Hscan Hget)
      as (Hin & _ & _).
    destruct (Hin r Hr) as [Hrt' Htarget].
    rewrite Ht' in Hrt'. apply in_map_iff in Hrt'.
    destruct Hrt' as (x & Hx & _).
    destruct (eqTargetUnread u x) eqn:Hw.
    + subst r. reflexivity.
    + subst r. unfold eqTargetUnread in Hw. rewrite Htarget, String.eqb_refl in Hw.
      simpl in Hw. destruct (Read x); [reflexivity | discriminate].
  - intros Hne.
    assert (Hsame : filter (sqlselect.eqTarget v) t' = filter (sqlselect.eqTarget v) t).
    { rewrite Ht'. apply update_keeps_other_targets.
      - intros r. reflexivity.
      - intros r Hw. apply eqTargetUnread_true in Hw. destruct Hw as [Ht _].
        congruence. }
    split.
    + unfold sqlselect.getUserNotifications. rewrite Hsame. reflexivity.
    + unfold getUnreadNotificationCount, sqlCount.
      rewrite !unread_of_user, Hsame. reflexivity.
Qed.

Lemma markAll_then_list_witness :
  let t' := snd (markAllNotificationsAsRead rt0 "bob" table0) in
  sqlselect.getUserNotifications rt0 fixtures.scanOk "bob" 0 t'
  = Ok [setReadAt 1000 (row "d" "bob" false 400); row "b" "bob" true 200;
        setReadAt 1000 (row "a" "bob" false 100)] /\
  getUnreadNotificationCount rt0 "mallory" t'
  = getUnreadNotificationCount rt0 "mallory" table0.
Proof.
  intros t'.
  destruct (markAll_then_list rt0 rt0 fixtures.scanOk "bob" "mallory" 0 table0
              eq_refl (fun r => eq_refl)) as [_ Hother].
  split; [reflexivity |].
  apply Hother. discriminate.
Defined.

(** X11.  Create, then read back.  When [createUserNotification] succeeds,
    the created row carries the fresh identifier and the clock reading, its
    identifier was not in the table before, it appears in the unlimited
    list of its target user, the unread count of the target grows by one
    exactly when the row was posted unread, and the lists of all other
    users are unchanged. *)
Theorem create_then_read_back :
  forall (rt rt' : Runtime) (scan : UserNotification -> Result UserNotification)
         (n created : UserNotification) (t t' : Table),
    execErr rt' = None ->
    (forall r, scan r = Ok r) ->
    createUserNotification rt n t = (Ok created, t') ->
    NID created = NewID rt /\
    NCreateAt created = GetMillis rt /\ NUpdateAt created = GetMillis rt /\
    TargetUserID created = TargetUserID n /\
    ~ In (NID created) (map NID t) /\
    (exists rows,
        sqlselect.getUserNotifications rt' scan (TargetUserID n) 0 t' = Ok rows /\
        In created rows) /\
    (exists c,
        getUnreadNotificationCount rt' (TargetUserID n) t = Ok c /\
        getUnreadNotificationCount rt' (TargetUserID n) t'
        = Ok (c + (if Read n then 0 else 1))) /\
    (forall v limit,
        v <> TargetUserID n ->
        sqlselect.getUserNotifications rt' scan v limit t'
        = sqlselect.getUserNotifications rt' scan v limit t).
Proof.
  intros rt rt' scan n created t t' Hexec' Hscan Hcreate.
  unfold createUserNotification, Exec, sqlInsert in Hcreate.
  destruct (execErr rt) as [e |]; [discriminate |].
  match type of Hcreate with
  | context [existsb ?f t] => destruct (existsb f t) eqn:Hex
  end; [discriminate |].
  inversion Hcreate as [[Hcreated Ht']]. clear Hcreate. subst created t'.
  split; [reflexivity |]. split; [reflexivity |]. split; [reflexivity |].
  split; [reflexivity |]. split.
  { exact (existsb_NID_false _ t Hex). }
  split; [| split].
  - rewrite (selected_rows rt' scan _ 0 _ Hexec' Hscan). simpl (0 <? 0).
    eexists. split; [reflexivity |].
    apply (Permutation_in _ (Permutation_sym (orderByCreateAtDesc_perm _))).
    apply filter_In. split.
    + apply in_or_app. right. left. reflexivity.
    + unfold sqlselect.eqTarget. simpl. apply String.eqb_refl.
  - unfold getUnreadNotificationCount, sqlCount. rewrite Hexec'.
    eexists. split; [reflexivity |]. f_equal.
    rewrite filter_app, length_app. simpl.
    unfold eqTargetUnread at 2. simpl. rewrite String.eqb_refl. simpl.
    destruct (Read n); simpl; lia.
  - intros v limit Hne. unfold sqlselect.getUserNotifications.
    match goal with
    | |- context [filter (sqlselect.eqTarget v) (t ++ [?c])%list] =>
        assert (Hsame : filter (sqlselect.eqTarget v) (t ++ [c])%list
                        = filter (sqlselect.eqTarget v) t)
    end.
    { rewrite filter_app. cbn [filter]. unfold sqlselect.eqTarget at 2.
      cbn [TargetUserID].
      replace (String.eqb (TargetUserID n) v) with false
        by (symmetry; apply String.eqb_neq; congruence).
      apply app_nil_r. }
    rewrite Hsame. reflexivity.
Qed.

Lemma create_then_read_back_witness :
  exists created t',
    createUserNotification rt0 (assignedBob false) table0 = (Ok created, t') /\
    NID created = "n1" /\
    getUnreadNotificationCount rt0 "bob" t' = Ok 3.
Proof.
  eexists. eexists. split; [reflexivity |].
  destruct (create_then_read_back rt0 rt0 fixtures.scanOk (assignedBob false)
              _ table0 _ eq_refl (fun r => eq_refl) eq_refl)
    as (Hid & _ & _ & _ & _ & _ & (c & Hc & Hc') & _).
  split; [exact Hid |].
  refine (eq_trans Hc' _). inversion Hc. reflexivity.
Defined.

(** X12.  Identifiers stay unique.  If no two rows of the table share an
    id, the same holds after each mutating store function, whether it
    succeeds or fails: create (a taken id is refused, leaving the table as
    it was), mark-as-read, mark-all-read and delete. *)
Theorem store_keeps_ids_unique :
  forall (rt : Runtime) (n : UserNotification) (notificationID userID : string)
         (t : Table),
    uniqueIds t ->
    uniqueIds (snd (createUserNotification rt n t)) /\
    uniqueIds (snd (markNotificationAsRead rt notificationID userID t)) /\
    uniqueIds (snd (markAllNotificationsAsRead rt userID t)) /\
    uniqueIds (snd (deleteUserNotification rt notificationID userID t)) /\
    (In (NewID rt) (map NID t) ->
     exists e, createUserNotification rt n t = (Err e, t)).
Proof.
  intros rt n nid uid t Huniq. unfold uniqueIds in *.
  split; [| split; [| split; [| split]]].
  - unfold createUserNotification, Exec, sqlInsert.
    destruct (execErr rt); [exact Huniq |].
    match goal with
    | |- context [existsb ?f t] => destruct (existsb f t) eqn:Hex
    end; [exact Huniq |].
    cbn [snd fst]. rewrite map_app. apply NoDup_app.
    + exact Huniq.
    + constructor; [intros [] | constructor].
    + intros a Ha [<- | []]. exact (existsb_NID_false _ t Hex Ha).
  - unfold markNotificationAsRead, Exec, sqlUpdate.
    destruct (execErr rt); [exact Huniq |].
    destruct (rowsAffectedErr rt); cbn [snd];
      (rewrite map_NID_update; [exact Huniq | intros r; reflexivity]).
  - unfold markAllNotificationsAsRead, Exec, sqlUpdate.
    destruct (execErr rt); [exact Huniq |]. cbn [snd].
    rewrite map_NID_update; [exact Huniq | intros r; reflexivity].
  - unfold deleteUserNotification, Exec, sqlDelete.
    destruct (execErr rt); [exact Huniq |]. cbn [snd].
    apply NoDup_map_filter, Huniq.
  - intros Hin. unfold createUserNotification, Exec, sqlInsert.
    destruct (execErr rt) as [e |]; [exists e; reflexivity |].
    match goal with
    | |- context [existsb ?f t] => destruct (existsb f t) eqn:Hex
    end.
    + eexists. reflexivity.
    + exfalso. exact (existsb_NID_false _ t Hex Hin).
Qed.

Lemma store_keeps_ids_unique_witness :
  uniqueIds table0 /\
  uniqueIds (snd (createUserNotification rt0 (assignedBob false) table0)) /\
  uniqueIds (snd (deleteUserNotification rt0 "a" "bob" table0)).
Proof.
  assert (Huniq : uniqueIds table0).
  { unfold uniqueIds. simpl.
    repeat (constructor; [simpl; intuition discriminate |]). constructor. }
  destruct (store_keeps_ids_unique rt0 (assignedBob false) "a" "bob" table0 Huniq)
    as (Hcreate & _ & _ & Hdelete & _).
  split; [exact Huniq |]. split; [exact Hcreate | exact Hdelete].
Defined.

(** X13.  Marking one's own notification read, on a working database:
    the call succeeds, every row of that id owned by the caller becomes a
    read row stamped with the current time (also when it was read already:
    unlike mark-all-read this statement has no [is_read] filter, so
    [update_at] moves again), and every other row, rows of other users with
    the same id included, is unchanged. *)
Theorem markNotificationAsRead_own_row :
  forall (rt : Runtime) (notificationID userID : string) (t : Table),
    execErr rt = None ->
    rowsAffectedErr rt = None ->
    exists t',
      markNotificationAsRead rt notificationID userID t = (None, t') /\
      length t' = length t /\
      (forall i r, nth_error t i = Some r ->
         NID r = notificationID -> TargetUserID r = userID ->
         exists r', nth_error t' i = Some r' /\ markedReadAt (GetMillis rt) r r') /\
      (forall i r, nth_error t i = Some r ->
         NID r <> notificationID \/ TargetUserID r <> userID ->
         nth_error t' i = Some r).
Proof.
  intros rt nid uid t Hexec Hrows.
  exists (map (fun x => if eqIdTarget nid uid x
                        then setReadAt (GetMillis rt) x else x) t).
  split; [| split; [| split]].
  - unfold markNotificationAsRead, Exec, sqlUpdate. rewrite Hexec, Hrows. reflexivity.
  - apply length_map.
  - intros i r Hi Hid Ht. exists (setReadAt (GetMillis rt) r). split.
    + rewrite (update_nth _ _ _ _ _ Hi). unfold eqIdTarget.
      rewrite Hid, Ht, !String.eqb_refl. reflexivity.
    + apply markedReadAt_setReadAt.
  - intros i r Hi Hother. rewrite (update_nth _ _ _ _ _ Hi).
    rewrite eqIdTarget_false; [reflexivity |].
    intros Hid Ht. destruct Hother; contradiction.
Qed.

Lemma markNotificationAsRead_own_row_witness :
  execErr rt0 = None /\ rowsAffectedErr rt0 = None /\
  exists t',
    markNotificationAsRead rt0 "b" "bob" table0 = (None, t') /\
    length t' = length table0 /\
    (forall i r, nth_error table0 i = Some r ->
       NID r = "b" -> TargetUserID r = "bob" ->
       exists r', nth_error t' i = Some r' /\ markedReadAt (GetMillis rt0) r r') /\
    (forall i r, nth_error table0 i = Some r ->
       NID r <> "b" \/ TargetUserID r <> "bob" ->
       nth_error t' i = Some r).
Proof.
  split; [reflexivity |]. split; [reflexivity |].
  exact (markNotificationAsRead_own_row rt0 "b" "bob" table0 eq_refl eq_refl).
Defined.

(** X14.  Deleting one's own notification, on a working database: the
    call succeeds, afterwards no row has that id with the caller as target,
    exactly the other rows remain (in their order), the rows of every other
    user are untouched, and a second identical delete changes nothing. *)
Theorem deleteUserNotification_own_row :
  forall (rt : Runtime) (notificationID userID : string) (t : Table),
    execErr rt = None ->
    exists t',
      deleteUserNotification rt notificationID userID t = (None, t') /\
      (forall r, In r t' <->
                 In r t /\ ~ (NID r = notificationID /\ TargetUserID r = userID)) /\
      (forall v, v <> userID ->
                 filter (sqlselect.eqTarget v) t' = filter (sqlselect.eqTarget v) t) /\
      deleteUserNotification rt notificationID userID t' = (None, t') /\
      (uniqueIds t ->
       (exists r, In r t /\ NID r = notificationID /\ TargetUserID r = userID) ->
       S (length t') = length t).
Proof.
  intros rt nid uid t Hexec.
  exists (filter (fun r => negb (eqIdTarget nid uid r)) t).
  assert (Hcall : forall t0, deleteUserNotification rt nid uid t0
                  = (None, filter (fun r => negb (eqIdTarget nid uid r)) t0)).
  { intros t0. unfold deleteUserNotification, Exec, sqlDelete.
    rewrite Hexec. reflexivity. }
  split; [apply Hcall |]. split; [| split; [| split]].
  - intros r. rewrite filter_In, negb_true_iff. split.
    + intros [Hin Hno]. split; [exact Hin |]. intros [Hid Ht].
      unfold eqIdTarget in Hno. rewrite Hid, Ht, !String.eqb_refl in Hno.
      discriminate.
    + intros [Hin Hno]. split; [exact Hin |].
      apply eqIdTarget_false. intros Hid Ht. apply Hno. auto.
  - intros v Hv. apply delete_keeps_other_targets.
    intros r Hw. apply eqIdTarget_target in Hw. destruct Hw as [_ Ht]. congruence.
  - rewrite Hcall. rewrite delete_no_match; [reflexivity |].
    intros r Hr. apply filter_In in Hr. destruct Hr as [_ Hr].
    apply negb_true_iff, Hr.
  - intros Huniq (r0 & Hin0 & Hid0 & Ht0). unfold uniqueIds in Huniq.
    clear Hcall Hexec. induction t as [| x t IH]; [destruct Hin0 |].
    simpl in Huniq. apply NoDup_cons_iff in Huniq. destruct Huniq as [Hnotin Hnd].
    simpl. destruct (eqIdTarget nid uid x) eqn:Hx; simpl.
    + f_equal. rewrite delete_no_match; [reflexivity |]. intros r Hr.
      apply eqIdTarget_false. intros Hid _.
      apply eqIdTarget_target in Hx. destruct Hx as [Hxid _].
      apply Hnotin. apply in_map_iff. exists r. split; [congruence | exact Hr].
    + f_equal. destruct Hin0 as [-> | Hin0].
      * unfold eqIdTarget in Hx. rewrite Hid0, Ht0, !String.eqb_refl in Hx.
        discriminate.
      * apply IH; assumption.
Qed.

Lemma deleteUserNotification_own_row_witness :
  execErr rt0 = None /\
  exists t',
    deleteUserNotification rt0 "a" "bob" table0 = (None, t') /\
    (forall r, In r t' <->
               In r table0 /\ ~ (NID r = "a" /\ TargetUserID r = "bob")) /\
    (forall v, v <> "bob" ->
               filter (sqlselect.eqTarget v) t' = filter (sqlselect.eqTarget v) table0) /\
    deleteUserNotification rt0 "a" "bob" t' = (None, t') /\
    (uniqueIds table0 ->
     (exists r, In r table0 /\ NID r = "a" /\ TargetUserID r = "bob") ->
     S (length t') = length table0).
Proof.
  split; [reflexivity |].
  exact (deleteUserNotification_own_row rt0 "a" "bob" table0 eq_refl).
Defined.

(** ** The read endpoints *)

(** X15.  GET /notifications answers with the caller's own notifications
    only: whenever it answers 200, every row in the body is a stored row
    whose target is the session user, the rows come newest first, and the
    request changed nothing but the audit log, which gained one successful
    [getNotifications] record. *)
Theorem handleGetNotifications_own_rows_only :
  forall (WS B : Type) (rt : Runtime)
         (scan : UserNotification -> Result UserNotification)
         (query : string -> string) (r : Request B) (st : API WS)
         (status : Z) (rows : list UserNotification),
    (forall x, scan x = Ok x) ->
    fst (apiread.handleGetNotifications rt scan query r st)
    = apiread.NotificationsJSON status rows ->
    status = StatusOK /\
    (forall x, In x rows ->
       In x (notifications (app st)) /\ TargetUserID x = getUserID r) /\
    newestFirst rows /\
    snd (apiread.handleGetNotifications rt scan query r st)
    = mkAPI (app st) (permissions st)
        (audit st ++ [mkAuditRecord LevelRead "getNotifications" [] true])%list.
Proof.
  intros WS B rt scan query r st status rows Hscan Hresp.
  unfold apiread.handleGetNotifications, apiread.GetUserNotifications in *.
  destruct (sqlselect.getUserNotifications rt scan (getUserID r)
              (apiread.requestedLimit query) (notifications (app st)))
    as [found | e] eqn:Hget; simpl in Hresp; [| discriminate].
  inversion Hresp; subst status rows.
  destruct (selected_rows_sound rt scan (getUserID r)
              (apiread.requestedLimit query) (notifications (app st)) found
              Hscan Hget) as (Hin & Hsorted & _).
  split; [reflexivity |]. split; [exact Hin |]. split; [exact Hsorted | reflexivity].
Qed.

Lemma handleGetNotifications_own_rows_only_witness :
  let req := mkRequest (mkSession "mallory") (pathVars "" "" "") (BodyValue tt) in
  fst (apiread.handleGetNotifications rt0 fixtures.scanOk (fun _ => "") req api0)
  = apiread.NotificationsJSON StatusOK [row "c" "mallory" false 300] /\
  newestFirst [row "c" "mallory" false 300].
Proof.
  intros req. split; [reflexivity |].
  apply (handleGetNotifications_own_rows_only Pushed unit rt0 fixtures.scanOk
           (fun _ => "") req api0 StatusOK [row "c" "mallory" false 300]).
  - intros x. reflexivity.
  - reflexivity.
Defined.

(** X16.  The [limit] query parameter.  On a working database, with [all]
    the caller's full list: a missing limit, or one [strconv.Atoi]
    rejects, yields the 50 newest rows; an accepted positive limit [l]
    yields the [l] newest; an accepted limit of zero or below lifts the cap
    and yields the full list. *)
Theorem handleGetNotifications_limit :
  forall (WS B : Type) (rt : Runtime)
         (scan : UserNotification -> Result UserNotification)
         (query : string -> string) (r : Request B) (st : API WS),
    execErr rt = None ->
    (forall x, scan x = Ok x) ->
    exists all,
      apiread.GetUserNotifications rt scan (getUserID r) 0 (app st) = Ok all /\
      fst (apiread.handleGetNotifications rt scan query r st)
      = apiread.NotificationsJSON StatusOK
          (match strconv.Atoi (query "limit") with
           | None => firstn 50 all
           | Some l => if 0 <? l then firstn (Z.to_nat l) all else all
           end).
Proof.
  intros WS B rt scan query r st Hexec Hscan.
  unfold apiread.handleGetNotifications, apiread.GetUserNotifications.
  rewrite !(selected_rows rt scan _ _ _ Hexec Hscan). simpl (0 <? 0).
  eexists. split; [reflexivity |].
  unfold apiread.requestedLimit.
  destruct (String.eqb_spec (query "limit") "") as [Hempty | Hgiven].
  - rewrite Hempty. reflexivity.
  - simpl negb. cbv iota.
    destruct (strconv.Atoi (query "limit")) as [l |]; reflexivity.
Qed.

Lemma handleGetNotifications_limit_witness :
  let req := mkRequest (mkSession "bob") (pathVars "" "" "") (BodyValue tt) in
  let st := mkAPI (mkApp [alice; bob] (fixtures.manyRows 60) ([] : Pushed) [])
                  New [] in
  let served query :=
    match fst (apiread.handleGetNotifications rt0 fixtures.scanOk query req st) with
    | apiread.NotificationsJSON _ rows => length rows
    | apiread.ListError _ => O
    end in
  execErr rt0 = None /\
  served (fun _ => "") = 50%nat /\
  served (fun _ => "abc") = 50%nat /\
  served (fun _ => "7") = 7%nat /\
  served (fun _ => "0") = 60%nat /\
  served (fun _ => "-1") = 60%nat.
Proof.
  intros req st served. split; [reflexivity |].
  split; [reflexivity |]. split; [reflexivity |]. split; [reflexivity |].
  split; [| reflexivity].
  unfold served.
  destruct (handleGetNotifications_limit Pushed unit rt0 fixtures.scanOk
              (fun _ => "0") req st eq_refl (fun x => eq_refl))
    as (all & Hall & ->).
  vm_compute in Hall. inversion Hall. reflexivity.
Defined.

(** X17.  The avatar endpoint serves the first avatar file that exists,
    trying .jpg, .png, .gif, .webp in this order, with the content type of
    that file's extension and a one-day cache header; it answers 404
    exactly when none of the four files exists. *)
Theorem handleGetAvatar_first_existing :
  forall (Join : string -> string -> string) (stat : string -> bool)
         (FilesPath userID : string),
    let file ext := Join (Join FilesPath "avatars") (userID ++ ext) in
    (apiread.handleGetAvatar Join stat FilesPath userID = apiread.AvatarNotFound
     <-> stat (file ".jpg") = false /\ stat (file ".png") = false /\
         stat (file ".gif") = false /\ stat (file ".webp") = false) /\
    (forall path contentType cacheControl,
        apiread.handleGetAvatar Join stat FilesPath userID
        = apiread.ServeFile path contentType cacheControl ->
        stat path = true /\ cacheControl = "public, max-age=86400" /\
        ((path = file ".jpg" /\ contentType = "image/jpeg") \/
         (path = file ".png" /\ contentType = "image/png" /\
          stat (file ".jpg") = false) \/
         (path = file ".gif" /\ contentType = "image/gif" /\
          stat (file ".jpg") = false /\ stat (file ".png") = false) \/
         (path = file ".webp" /\ contentType = "image/webp" /\
          stat (file ".jpg") = false /\ stat (file ".png") = false /\
          stat (file ".gif") = false))).
Proof.
  intros Join stat FilesPath userID file.
  unfold apiread.handleGetAvatar, apiread.avatarExtensions. simpl. fold file.
  fold (file ".jpg") (file ".png") (file ".gif") (file ".webp").
  destruct (stat (file ".jpg")) eqn:Hjpg;
    [| destruct (stat (file ".png")) eqn:Hpng;
       [| destruct (stat (file ".gif")) eqn:Hgif;
          [| destruct (stat (file ".webp")) eqn:Hwebp]]].
  - split; [split; [discriminate | intros (H & _); discriminate] |].
    intros path ct cc H. inversion H; subst. auto.
  - split; [split; [discriminate | intros (_ & H & _); discriminate] |].
    intros path ct cc H. inversion H; subst. auto 10.
  - split; [split; [discriminate | intros (_ & _ & H & _); discriminate] |].
    intros path ct cc H. inversion H; subst. auto 10.
  - split; [split; [discriminate | intros (_ & _ & _ & H); discriminate] |].
    intros path ct cc H. inversion H; subst. auto 12.
  - split; [split; auto |]. intros path ct cc H. discriminate.
Qed.

(** ** Handlers: audit trail and frame *)

Ltac run_handler :=
  unfold handleAdminSetPassword, handleAdminGetAllUsers, handleAdminGetUser,
    handleAdminUpdateUser, handleAdminDeleteUser, handleGetUnreadCount,
    handleCreateNotification, handleMarkAsRead, handleMarkAllAsRead,
    handleDeleteNotification, runHandler, audited, bind, try, tryErr, bind,
    readBody, ret, notAuthorized, errorResponse, onApp;
  simpl session.

Ltac split_outcomes :=
  repeat (simpl;
          match goal with
          | |- context [match ?x with _ => _ end] =>
              lazymatch x with
              | context [match _ with _ => _ end] => fail
              | _ => destruct x
              end
          end);
  simpl.

Ltac audit_case :=
  unfold auditConsistent, auditedOnce; cbn [fst snd audit isOK];
  first
    [ left; split; reflexivity
    | right; eexists; split; reflexivity ].

Ltac unfold_app :=
  unfold appGetAllUsers, appGetUser, appUpdateUser, appUpdateUserPassword,
    appUpdateUserPasswordByID, appDeleteUser, GetUnreadNotificationCount,
    CreateAndBroadcastNotification, CreateUserNotification,
    broadcastUserNotification, MarkNotificationAsRead,
    MarkAllNotificationsAsRead, DeleteUserNotification.

(** X18.  The audit trail matches the responses.  For each audited
    handler (the five admin handlers and the four mutating notification
    handlers) and every request, runtime and implementation of the user
    layer and of the adapter: either the request was turned down before
    auditing, with an error response and no record, or the audit log gained
    exactly one record, marked successful exactly when the response is a
    200. *)
Theorem handlers_audit_consistent :
  forall (WS : Type) (uf : UserFuncs) (wsAdapter : WSAdapter WS) (rt : Runtime)
         (st : API WS),
    (forall r, let res := handleAdminSetPassword uf r st in
               auditConsistent st (snd res) (fst res)) /\
    (forall B (r : Request B), let res := handleAdminGetAllUsers uf r st in
               auditConsistent st (snd res) (fst res)) /\
    (forall B (r : Request B), let res := handleAdminGetUser uf r st in
               auditConsistent st (snd res) (fst res)) /\
    (forall r, let res := handleAdminUpdateUser uf r st in
               auditConsistent st (snd res) (fst res)) /\
    (forall B (r : Request B), let res := handleAdminDeleteUser uf r st in
               auditConsistent st (snd res) (fst res)) /\
    (forall r, let res := handleCreateNotification wsAdapter rt r st in
               auditConsistent st (snd res) (fst res)) /\
    (forall B (r : Request B), let res := handleMarkAsRead rt r st in
               auditConsistent st (snd res) (fst res)) /\
    (forall B (r : Request B), let res := handleMarkAllAsRead rt r st in
               auditConsistent st (snd res) (fst res)) /\
    (forall B (r : Request B), let res := handleDeleteNotification rt r st in
               auditConsistent st (snd res) (fst res)).
Proof.
  intros WS uf wsAdapter rt st.
  repeat match goal with |- _ /\ _ => split end; intros; subst res;
    run_handler; try rewrite hasPermissionTo_run; unfold_app;
    split_outcomes; audit_case.
Qed.



Section OtherUsers.
Import sqlselect.

Lemma store_keeps_other_users (rt : Runtime) (nid u v : string) (t : Table) :
  v <> u ->
  filter (eqTarget v) (snd (markNotificationAsRead rt nid u t)) = filter (eqTarget v) t /\
  filter (eqTarget v) (snd (markAllNotificationsAsRead rt u t)) = filter (eqTarget v) t /\
  filter (eqTarget v) (snd (deleteUserNotification rt nid u t)) = filter (eqTarget v) t.
Proof.
  intros Hne.
  unfold markNotificationAsRead, markAllNotificationsAsRead,
    deleteUserNotification, Exec, sqlUpdate, sqlDelete.
  destruct (execErr rt); [repeat split |].
  split; [| split].
  - destruct (rowsAffectedErr rt); cbn [snd];
      (apply update_keeps_other_targets;
       [ intros r; reflexivity
       | intros r Hw; apply eqIdTarget_target in Hw; destruct Hw; congruence ]).
  - cbn [snd]. apply update_keeps_other_targets.
    + intros r. reflexivity.
    + intros r Hw. apply eqTargetUnread_true in Hw. destruct Hw. congruence.
  - cbn [snd]. apply delete_keeps_other_targets.
    intros r Hw. apply eqIdTarget_target in Hw. destruct Hw. congruence.
Qed.

Lemma after_markAsRead {WS B} rt (r : Request B) (st : API WS) :
  notifications (app (snd (handleMarkAsRead rt r st)))
  = snd (markNotificationAsRead rt (vars r "notificationID") (getUserID r)
           (notifications (app st))).
Proof.
  run_handler. unfold_app.
  destruct (markNotificationAsRead rt _ _ _) as [[e |] t']; reflexivity.
Qed.

Lemma after_markAllAsRead {WS B} rt (r : Request B) (st : API WS) :
  notifications (app (snd (handleMarkAllAsRead rt r st)))
  = snd (markAllNotificationsAsRead rt (getUserID r) (notifications (app st))).
Proof.
  run_handler. unfold_app.
  destruct (markAllNotificationsAsRead rt _ _) as [[e |] t']; reflexivity.
Qed.

Lemma after_deleteNotification {WS B} rt (r : Request B) (st : API WS) :
  notifications (app (snd (handleDeleteNotification rt r st)))
  = snd (deleteUserNotification rt (vars r "notificationID") (getUserID r)
           (notifications (app st))).
Proof.
  run_handler. unfold_app.
  destruct (deleteUserNotification rt _ _ _) as [[e |] t']; reflexivity.
Qed.

Lemma reads_depend_on_own_rows {WS B} rt scan query (r : Request B) (st st' : API WS) :
  filter (eqTarget (getUserID r)) (notifications (app st'))
  = filter (eqTarget (getUserID r)) (notifications (app st)) ->
  fst (handleGetUnreadCount rt r st') = fst (handleGetUnreadCount rt r st) /\
  fst (apiread.handleGetNotifications rt scan query r st')
  = fst (apiread.handleGetNotifications rt scan query r st).
Proof.
  intros Hsame. split.
  - run_handler. unfold_app. unfold getUnreadNotificationCount, sqlCount.
    rewrite !unread_of_user, Hsame.
    destruct (execErr rt); reflexivity.
  - unfold apiread.handleGetNotifications, apiread.GetUserNotifications,
      getUserNotifications.
    rewrite Hsame.
    destruct (match execErr rt with Some e => Err e | None => _ end); reflexivity.
Qed.

End OtherUsers.

(** X20.  Mark-as-read, mark-all-read and delete cannot reach another
    user's notifications.  After any such request by one caller, whatever
    the notification id and whatever the database does, the unread count and
    the notification list served to a different session user are the same
    as before the request. *)
Theorem own_scoped_requests_do_not_interfere :
  forall (WS B B' : Type) (rt rt' : Runtime)
         (scan : UserNotification -> Result UserNotification)
         (query : string -> string)
         (caller : Request B) (other : Request B') (st : API WS),
    getUserID other <> getUserID caller ->
    forall st',
      st' = snd (handleMarkAsRead rt caller st) \/
      st' = snd (handleMarkAllAsRead rt caller st) \/
      st' = snd (handleDeleteNotification rt caller st) ->
      fst (handleGetUnreadCount rt' other st') = fst (handleGetUnreadCount rt' other st) /\
      fst (apiread.handleGetNotifications rt' scan query other st')
      = fst (apiread.handleGetNotifications rt' scan query other st).
Proof.
  intros WS B B' rt rt' scan query caller other st Hne st' Hst'.
  apply reads_depend_on_own_rows.
  destruct (store_keeps_other_users rt (vars caller "notificationID")
              (getUserID caller) (getUserID other) (notifications (app st)) Hne)
    as (Hone & Hall & Hdel).
  destruct Hst' as [-> | [-> | ->]].
  - rewrite after_markAsRead. exact Hone.
  - rewrite after_markAllAsRead. exact Hall.
  - rewrite after_deleteNotification. exact Hdel.
Qed.

Lemma own_scoped_requests_do_not_interfere_witness :
  let caller := mkRequest (mkSession "mallory") (pathVars "" "a" "") (BodyValue tt) in
  let other := mkRequest (mkSession "bob") (pathVars "" "" "") (BodyValue tt) in
  let st' := snd (handleDeleteNotification rt0 caller api0) in
  fst (handleGetUnreadCount rt0 other st') = JSONResponse StatusOK (CountJSON 2) /\
  fst (handleGetUnreadCount rt0 other st') = fst (handleGetUnreadCount rt0 other api0).
Proof.
  intros caller other st'. split; [reflexivity |].
  apply (own_scoped_requests_do_not_interfere Pushed unit unit rt0 rt0
           fixtures.scanOk (fun _ => "") caller other api0).
  - discriminate.
  - right. right. reflexivity.
Defined.

(** ** Admin update *)

Lemma mergedUser_steps (user : User) (d : AdminUpdateUserData.t) :
  (let user1 :=
     if negb (String.eqb (AdminUpdateUserData.Username d) "")
     then mkUser (ID user) (AdminUpdateUserData.Username d)
                 (Email user) (model.Password user) (CreateAt user) (UpdateAt user)
     else user in
   if negb (String.eqb (AdminUpdateUserData.Email d) "")
   then mkUser (ID user1) (Username user1) (AdminUpdateUserData.Email d)
               (model.Password user1) (CreateAt user1) (UpdateAt user1)
   else user1)
  = mergedUser user d.
Proof.
  unfold mergedUser. destruct user as [i u e p c a].
  destruct (String.eqb (AdminUpdateUserData.Username d) "");
    destruct (String.eqb (AdminUpdateUserData.Email d) ""); reflexivity.
Qed.

(** X21.  What an admin update sends to the user layer.  For a caller who
    passes the manage-system check, a decoded body and an existing user,
    the handler calls [GetUser] with the path ID, then [UpdateUser] with the
    stored user in which only a non-empty [username] and a non-empty
    [email] of the body are replaced (ID, password hash and timestamps are
    the stored ones), and then [UpdateUserPasswordByID] with the path ID
    exactly when [UpdateUser] succeeded and the body's password is not
    empty; it makes no other call. *)
Theorem handleAdminUpdateUser_calls :
  forall (WS : Type) (uf : UserFuncs) (r : Request AdminUpdateUserData.t)
         (st : API WS) (d : AdminUpdateUserData.t) (u : User),
    managesSystem uf (session r) st = true ->
    body r = BodyValue d ->
    GetUser uf (vars r "userID") (users (app st)) = Ok u ->
    let userID := vars r "userID" in
    let updated :=
      match fst (UpdateUser uf (mergedUser u d) (users (app st))) with
      | Ok _ => true
      | Err _ => false
      end in
    calls (app (snd (handleAdminUpdateUser uf r st)))
    = (calls (app st)
       ++ [CallGetUser userID; CallUpdateUser (mergedUser u d)]
       ++ (if updated && negb (String.eqb (AdminUpdateUserData.Password d) "")
           then [CallUpdateUserPasswordByID userID (AdminUpdateUserData.Password d)]
           else []))%list.
Proof.
  intros WS uf r st d u Hadmin Hbody Hget userID updated. subst userID updated.
  run_handler. rewrite hasPermissionTo_run, Hadmin, Hbody. unfold_app.
  unfold afterCheck, logCall, withUsers.
  cbn [negb fst snd app users calls notifications ws permissions audit].
  rewrite Hget. cbn [fst snd app users calls notifications ws permissions audit].
  rewrite mergedUser_steps.
  remember (mergedUser u d) as merged eqn:Hmerged.
  remember (AdminUpdateUserData.Password d) as password eqn:Hpassword.
  destruct (UpdateUser uf merged (users (app st))) as [[updatedUser | e] us1];
    cbn [fst snd app users calls notifications ws permissions audit andb].
  - destruct (String.eqb password "");
      cbn [negb fst snd app users calls notifications ws permissions audit].
    + rewrite <- app_assoc. reflexivity.
    + destruct (UpdateUserPasswordByID uf (vars r "userID") password us1)
        as [[e |] us2];
        cbn [fst snd app users calls notifications ws permissions audit];
        rewrite <- !app_assoc; reflexivity.
  - rewrite <- app_assoc. reflexivity.
Qed.

Lemma handleAdminUpdateUser_calls_witness :
  let req := mkRequest (mkSession "alice") (pathVars "bob" "" "")
               (BodyValue (AdminUpdateUserData.mk "robert" "" "")) in
  managesSystem listUsers (session req) api0 = true /\
  calls (app (snd (handleAdminUpdateUser listUsers req api0)))
  = [CallGetUser "bob";
     CallUpdateUser (mkUser "bob" "robert" "bob@example.org" "h2" 20 20)].
Proof.
  intros req. split; [reflexivity |].
  exact (handleAdminUpdateUser_calls Pushed listUsers req api0
           (AdminUpdateUserData.mk "robert" "" "") bob eq_refl eq_refl eq_refl).
Defined.

(** X22.  An admin update is not atomic.  When [UpdateUser] succeeds and
    the password change that follows fails, the handler answers with the
    password error and records a failed audit entry, but the user table is
    the one the two calls left behind: the profile change of [UpdateUser] is
    not undone. *)
Theorem handleAdminUpdateUser_password_failure_keeps_profile :
  forall (WS : Type) (uf : UserFuncs) (r : Request AdminUpdateUserData.t)
         (st : API WS) (d : AdminUpdateUserData.t) (u updatedUser : User)
         (us1 us2 : list User) (e : Error),
    managesSystem uf (session r) st = true ->
    body r = BodyValue d ->
    GetUser uf (vars r "userID") (users (app st)) = Ok u ->
    UpdateUser uf (mergedUser u d) (users (app st)) = (Ok updatedUser, us1) ->
    AdminUpdateUserData.Password d <> "" ->
    UpdateUserPasswordByID uf (vars r "userID") (AdminUpdateUserData.Password d) us1
    = (Some e, us2) ->
    fst (handleAdminUpdateUser uf r st) = ErrorResponse e /\
    users (app (snd (handleAdminUpdateUser uf r st))) = us2 /\
    audit (snd (handleAdminUpdateUser uf r st))
    = (audit st ++ [mkAuditRecord LevelAuth "adminUpdateUser"
                      [("userID", vars r "userID")] false])%list.
Proof.
  intros WS uf r st d u updatedUser us1 us2 e Hadmin Hbody Hget Hupdate Hpw Hfail.
  run_handler. rewrite hasPermissionTo_run, Hadmin, Hbody. unfold_app.
  unfold afterCheck, logCall, withUsers.
  cbn [negb fst snd app users calls notifications ws permissions audit].
  rewrite Hget. cbn [fst snd app users calls notifications ws permissions audit].
  rewrite mergedUser_steps, Hupdate.
  cbn [fst snd app users calls notifications ws permissions audit].
  apply String.eqb_neq in Hpw. rewrite Hpw.
  cbn [negb fst snd app users calls notifications ws permissions audit].
  rewrite Hfail.
  cbn [fst snd app users calls notifications ws permissions audit].
  repeat split.
Qed.

Lemma handleAdminUpdateUser_password_failure_keeps_profile_witness :
  let req := mkRequest (mkSession "alice") (pathVars "bob" "" "")
               (BodyValue (AdminUpdateUserData.mk "robert" "" "x")) in
  fst (handleAdminUpdateUser fixtures.rejectingPasswords req api0)
  = ErrorResponse (ErrBadRequest "password too weak") /\
  users (app (snd (handleAdminUpdateUser fixtures.rejectingPasswords req api0)))
  = [alice; mkUser "bob" "robert" "bob@example.org" "h2" 20 20; mallory].
Proof.
  intros req.
  destruct (handleAdminUpdateUser_password_failure_keeps_profile Pushed
              fixtures.rejectingPasswords req api0
              (AdminUpdateUserData.mk "robert" "" "x") bob
              (mkUser "bob" "robert" "bob@example.org" "h2" 20 20)
              [alice; mkUser "bob" "robert" "bob@example.org" "h2" 20 20; mallory]
              [alice; mkUser "bob" "robert" "bob@example.org" "h2" 20 20; mallory]
              (ErrBadRequest "password too weak")
              eq_refl eq_refl eq_refl eq_refl)
    as (Hresp & Husers & _).
  - discriminate.
  - reflexivity.
  - split; [exact Hresp | exact Husers].
Defined.

(** ** webapp: the notifications slice *)

Section Slice.
Import notificationsSlice.

Lemma NoDup_firstn {A} n (l : list A) : NoDup l -> NoDup (firstn n l).
Proof.
  intros Hnd. rewrite <- (firstn_skipn n l) in Hnd.
  exact (NoDup_app_remove_r _ _ Hnd).
Qed.

Lemma existsb_id_false n l :
  existsb (fun m => String.eqb (id m) (id n)) l = false ->
  ~ In (id n) (map id l).
Proof.
  intros Hex Hin. apply in_map_iff in Hin. destruct Hin as (m & Hm & Hmin).
  assert (Htrue : existsb (fun m => String.eqb (id m) (id n)) l = true).
  { apply existsb_exists. exists m. split; [exact Hmin |]. apply String.eqb_eq, Hm. }
  congruence.
Qed.

Lemma pushFront_notifications n s :
  exists rest,
    notifications (pushFront n s) = n :: rest /\
    rest = firstn 49 (notifications s) /\
    (length (notifications (pushFront n s)) <= 50)%nat.
Proof.
  unfold pushFront. cbn [notifications].
  destruct (Z.ltb_spec 50 (Z.of_nat (length (n :: notifications s)))) as [Hlong | Hshort].
  - exists (firstn 49 (notifications s)). split; [reflexivity |].
    split; [reflexivity |]. apply firstn_le_length.
  - exists (notifications s). split; [reflexivity |].
    change (length (n :: notifications s)) with (S (length (notifications s)))
      in Hshort.
    split; [symmetry; apply firstn_all2; lia |].
    change (length (n :: notifications s)) with (S (length (notifications s))).
    lia.
Qed.

Lemma markFirst_ids target l : map id (markFirst target l) = map id l.
Proof.
  induction l as [| n l IH]; simpl; [reflexivity |].
  destruct (String.eqb (id n) target); simpl; [reflexivity | rewrite IH; reflexivity].
Qed.

Lemma markFirst_unknown target l :
  ~ In target (map id l) -> markFirst target l = l.
Proof.
  induction l as [| n l IH]; simpl; intros Hnot; [reflexivity |].
  destruct (String.eqb_spec (id n) target) as [Heq | Hne].
  - exfalso. apply Hnot. left. exact Heq.
  - f_equal. apply IH. intros Hin. apply Hnot. right. exact Hin.
Qed.

Lemma markFirst_unread target l :
  let unread l := length (filter (fun n => negb (read n)) l) in
  (unread (markFirst target l) <= unread l <= S (unread (markFirst target l)))%nat.
Proof.
  intros unread. subst unread. induction l as [| n l IH]; [simpl; lia |].
  cbn [markFirst]. destruct (String.eqb (id n) target).
  - cbn [filter withRead read negb]. destruct (read n); cbn [negb length]; lia.
  - cbn [filter]. destruct (read n); cbn [negb length]; lia.
Qed.

End Slice.

Lemma receiveNotification_cases :
  forall (state : notificationsSlice.NotificationsState)
         (payload : notificationsSlice.MemberNotification + UserNotification),
    let notification :=
      match payload with
      | inr server => notificationsSlice.convertFromServer server
      | inl member => member
      end in
    let state' := notificationsSlice.receiveNotification state payload in
    (In (notificationsSlice.id notification)
        (map notificationsSlice.id (notificationsSlice.notifications state)) ->
     state' = state) /\
    (~ In (notificationsSlice.id notification)
          (map notificationsSlice.id (notificationsSlice.notifications state)) ->
     notificationsSlice.notifications state'
     = notification :: firstn 49 (notificationsSlice.notifications state) /\
     notificationsSlice.currentToast state' = Some notification /\
     notificationsSlice.showToast state' = true /\
     (length (notificationsSlice.notifications state') <= 50)%nat) /\
    (NoDup (map notificationsSlice.id (notificationsSlice.notifications state)) ->
     NoDup (map notificationsSlice.id (notificationsSlice.notifications state'))).
Proof.
  intros state payload notification state'.
  subst state'. unfold notificationsSlice.receiveNotification. fold notification.
  destruct (existsb (fun n => String.eqb (notificationsSlice.id n)
                                (notificationsSlice.id notification))
              (notificationsSlice.notifications state)) eqn:Hex; cbn [negb].
  - split; [reflexivity |]. split; [| auto].
    intros Hnot. exfalso. apply Hnot.
    apply existsb_exists in Hex. destruct Hex as (m & Hm & Heq).
    apply in_map_iff. exists m. split; [apply String.eqb_eq, Heq | exact Hm].
  - pose proof (existsb_id_false _ _ Hex) as Hfresh.
    destruct (pushFront_notifications notification state)
      as (rest & Hlist & Hrest & Hlen).
    split; [intros Hin; contradiction |]. split.
    + intros _. split; [rewrite Hlist, Hrest; reflexivity |].
      split; [reflexivity |]. split; [reflexivity | exact Hlen].
    + intros Hnd. rewrite Hlist, Hrest. cbn [map]. constructor.
      * intros Hin. apply Hfresh. apply in_map_iff in Hin.
        destruct Hin as (m & Hm & Hmin). apply in_map_iff. exists m.
        split; [exact Hm | eapply In_firstn, Hmin].
      * rewrite <- firstn_map. apply NoDup_firstn, Hnd.
Qed.

(** X23.  Receiving a notification in the client.  A notification whose id
    is already listed changes nothing.  Otherwise it becomes the first
    entry and the current toast, the entries after it are the 49 newest of
    the old list, so the list holds at most 50 entries.  In both cases ids
    that were unique stay unique. *)
Theorem receiveNotification_dedup_and_cap :
  forall (state : notificationsSlice.NotificationsState)
         (payload : notificationsSlice.MemberNotification + UserNotification),
    let notification :=
      match payload with
      | inr server => notificationsSlice.convertFromServer server
      | inl member => member
      end in
    let state' := notificationsSlice.receiveNotification state payload in
    (In (notificationsSlice.id notification)
        (map notificationsSlice.id (notificationsSlice.notifications state)) ->
     state' = state) /\
    (~ In (notificationsSlice.id notification)
          (map notificationsSlice.id (notificationsSlice.notifications state)) ->
     notificationsSlice.notifications state'
     = notification :: firstn 49 (notificationsSlice.notifications state) /\
     notificationsSlice.currentToast state' = Some notification /\
     notificationsSlice.showToast state' = true /\
     (length (notificationsSlice.notifications state') <= 50)%nat) /\
    (NoDup (map notificationsSlice.id (notificationsSlice.notifications state)) ->
     NoDup (map notificationsSlice.id (notificationsSlice.notifications state'))).
Proof.
  exact receiveNotification_cases.
Qed.

(** X24.  Receiving is idempotent: delivering the same notification a
    second time (as happens when it arrives both pushed and fetched)
    leaves the state of the first delivery. *)
Theorem receiveNotification_idempotent :
  forall (state : notificationsSlice.NotificationsState)
         (payload : notificationsSlice.MemberNotification + UserNotification),
    notificationsSlice.receiveNotification
      (notificationsSlice.receiveNotification state payload) payload
    = notificationsSlice.receiveNotification state payload.
Proof.
  intros state payload.
  destruct (receiveNotification_cases state payload)
    as (Hdup & Hnew & _).
  destruct (receiveNotification_cases
              (notificationsSlice.receiveNotification state payload) payload)
    as (Hdup' & _).
  apply Hdup'.
  destruct (in_dec string_dec
              (notificationsSlice.id
                 match payload with
                 | inl member => member
                 | inr server => notificationsSlice.convertFromServer server
                 end)
              (map notificationsSlice.id (notificationsSlice.notifications state)))
    as [Hin | Hnot].
  - rewrite (Hdup Hin). exact Hin.
  - destruct (Hnew Hnot) as (Hlist & _). rewrite Hlist. left. reflexivity.
Qed.

(** X25.  Marking read in the client.  [markAllAsRead] brings the unread
    count to zero; [markAsRead] lowers it by at most one and changes
    nothing for an id that is not listed; neither changes the ids or the
    length of the list. *)
Theorem client_mark_read :
  forall (state : notificationsSlice.NotificationsState) (target : string),
    let ids s := map notificationsSlice.id (notificationsSlice.notifications s) in
    notificationsSlice.getUnreadCount (notificationsSlice.markAllAsRead state) = 0 /\
    ids (notificationsSlice.markAllAsRead state) = ids state /\
    ids (notificationsSlice.markAsRead state target) = ids state /\
    notificationsSlice.getUnreadCount state - 1
    <= notificationsSlice.getUnreadCount (notificationsSlice.markAsRead state target)
    <= notificationsSlice.getUnreadCount state /\
    (~ In target (ids state) -> notificationsSlice.markAsRead state target = state).
Proof.
  intros state target ids. subst ids.
  unfold notificationsSlice.getUnreadCount, notificationsSlice.markAllAsRead,
    notificationsSlice.markAsRead. cbn [notificationsSlice.notifications].
  split; [| split; [| split; [| split]]].
  - induction (notificationsSlice.notifications state) as [| n l IH];
      simpl; [reflexivity | exact IH].
  - rewrite map_map. apply map_ext. intros n. reflexivity.
  - apply markFirst_ids.
  - pose proof (markFirst_unread target (notificationsSlice.notifications state))
      as Hbounds. cbv zeta in Hbounds. lia.
  - intros Hnot. rewrite (markFirst_unknown _ _ Hnot).
    destruct state; reflexivity.
Qed.

(** X26.  The badge agrees with the server.  On a working database, a
    client that stores the user's full list as fetched (each row through
    [convertFromServer]) computes with [getUnreadCount] the number that the
    server's unread-count query reports for that user. *)
Theorem client_unread_count_matches_server :
  forall (rt : Runtime) (scan : UserNotification -> Result UserNotification)
         (userID : string) (t : Table)
         (state : notificationsSlice.NotificationsState),
    execErr rt = None ->
    (forall r, scan r = Ok r) ->
    exists rows,
      sqlselect.getUserNotifications rt scan userID 0 t = Ok rows /\
      getUnreadNotificationCount rt userID t
      = Ok (notificationsSlice.getUnreadCount
              (notificationsSlice.fetchFulfilled state
                 (map notificationsSlice.convertFromServer rows))).
Proof.
  intros rt scan u t state Hexec Hscan.
  destruct (unread_count_agrees_with_list_general rt scan u t Hexec Hscan)
    as (rows & Hrows & Hcount).
  exists rows. split; [exact Hrows |]. rewrite Hcount. f_equal.
  unfold notificationsSlice.getUnreadCount, notificationsSlice.fetchFulfilled.
  cbn [notificationsSlice.notifications]. f_equal.
  clear. induction rows as [| r rows IH]; simpl; [reflexivity |].
  destruct (Read r); simpl; rewrite IH; reflexivity.
Qed.

Lemma client_unread_count_matches_server_witness :
  exists rows,
    sqlselect.getUserNotifications rt0 fixtures.scanOk "bob" 0 table0 = Ok rows /\
    getUnreadNotificationCount rt0 "bob" table0
    = Ok (notificationsSlice.getUnreadCount
            (notificationsSlice.fetchFulfilled notificationsSlice.initialState
               (map notificationsSlice.convertFromServer rows))).
Proof.
  apply (client_unread_count_matches_server rt0 fixtures.scanOk "bob" table0
           notificationsSlice.initialState).
  - reflexivity.
  - intros r. reflexivity.
Defined.

(** ** webapp: the member filter *)

Section MemberFilter.
Import memberFilter.

Lemma indexOf_range x l : -1 <= indexOf x l < Z.of_nat (length l) \/ l = [].
Proof.
  induction l as [| y l IH]; [right; reflexivity |]. left.
  cbn [indexOf]. change (length (y :: l)) with (S (length l)).
  destruct (String.eqb y x); [lia |].
  destruct IH as [IH | ->]; [| cbn; lia].
  destruct (Z.ltb_spec (indexOf x l) 0); lia.
Qed.

Lemma toggle_absent x l :
  ~ In x l -> toggleMemberFilter l x = (l ++ [x])%list.
Proof.
  intros Hnot. unfold toggleMemberFilter.
  assert (Hidx : indexOf x l = -1).
  { induction l as [| y l IH]; [reflexivity |]. cbn [indexOf].
    destruct (String.eqb_spec y x) as [Heq | Hne].
    - exfalso. apply Hnot. left. exact Heq.
    - rewrite IH; [reflexivity |]. intros Hin. apply Hnot. right. exact Hin. }
  rewrite Hidx. reflexivity.
Qed.

Lemma toggle_present x l :
  In x l ->
  exists pre post,
    l = (pre ++ x :: post)%list /\ ~ In x pre /\
    toggleMemberFilter l x = (pre ++ post)%list.
Proof.
  intros Hin. unfold toggleMemberFilter.
  induction l as [| y l IH]; [destruct Hin |].
  cbn [indexOf]. destruct (String.eqb_spec y x) as [Heq | Hne].
  - subst y. exists [], l. repeat split. intros [].
  - destruct Hin as [Heq | Hin]; [contradiction |].
    destruct (IH Hin) as (pre & post & Hl & Hpre & Htoggle).
    exists (y :: pre), post. split; [rewrite Hl; reflexivity |].
    split; [intros [Heq | Hp]; [contradiction | exact (Hpre Hp)] |].
    destruct (indexOf_range x l) as [Hrange | Hnil]; [| rewrite Hnil in Hin; destruct Hin].
    destruct (Z.ltb_spec (indexOf x l) 0) as [Hneg | Hpos].
    + assert (Hminus : indexOf x l = -1) by lia.
      rewrite Hminus in Htoggle. cbn in Htoggle.
      exfalso. rewrite Hl in Htoggle.
      apply (f_equal (@length string)) in Htoggle.
      rewrite !length_app in Htoggle. cbn in Htoggle. lia.
    + replace (indexOf x l + 1 =? -1) with false by (symmetry; apply Z.eqb_neq; lia).
      replace (Z.to_nat (indexOf x l + 1)) with (S (Z.to_nat (indexOf x l))) by lia.
      cbn [splice1].
      replace (indexOf x l =? -1) with false in Htoggle
        by (symmetry; apply Z.eqb_neq; lia).
      rewrite Htoggle. reflexivity.
Qed.

Lemma appended_is_last (x : string) (l : list string) :
  forall pre post,
    ~ In x l -> (l ++ [x])%list = (pre ++ x :: post)%list ->
    pre = l /\ post = [].
Proof.
  induction l as [| y l IH]; intros pre post Hnot Heq.
  - destruct pre as [| a pre]; cbn in Heq.
    + inversion Heq. auto.
    + inversion Heq as [[Ha Hrest]]. destruct pre; discriminate.
  - destruct pre as [| a pre]; cbn in Heq.
    + inversion Heq as [[Hy Hrest]]. exfalso. apply Hnot. left. exact Hy.
    + inversion Heq as [[Ha Hrest]].
      destruct (IH pre post) as [Hpre Hpost].
      * intros Hin. apply Hnot. right. exact Hin.
      * exact Hrest.
      * subst. auto.
Qed.

End MemberFilter.

(** X27.  Toggling a member in the filter.  On a list without duplicates
    the toggle flips the membership of the toggled id, keeps every other
    id's membership, and leaves the list without duplicates: an absent id is
    appended, a present one is removed with the order of the others kept. *)
Theorem toggleMemberFilter_flips :
  forall (memberIds : list string) (userId : string),
    NoDup memberIds ->
    let toggled := memberFilter.toggleMemberFilter memberIds userId in
    NoDup toggled /\
    (In userId toggled <-> ~ In userId memberIds) /\
    (forall other, other <> userId -> (In other toggled <-> In other memberIds)) /\
    (~ In userId memberIds -> toggled = (memberIds ++ [userId])%list) /\
    (In userId memberIds ->
     exists pre post,
       memberIds = (pre ++ userId :: post)%list /\ toggled = (pre ++ post)%list).
Proof.
  intros l x Hnd toggled. subst toggled.
  destruct (in_dec string_dec x l) as [Hin | Hnot].
  - destruct (toggle_present x l Hin) as (pre & post & Hl & Hpre & Htoggle).
    rewrite Htoggle. rewrite Hl in Hnd.
    pose proof (NoDup_remove_1 _ _ _ Hnd) as Hnd'.
    pose proof (NoDup_remove_2 _ _ _ Hnd) as Hgone.
    split; [exact Hnd' |]. split; [split; [contradiction | tauto] |].
    split; [| split].
    + intros other Hother. rewrite Hl, !in_app_iff. simpl.
      split; [tauto |]. intros [H | [H | H]]; auto. congruence.
    + intros Hnot. contradiction.
    + intros _. exists pre, post. auto.
  - rewrite (toggle_absent x l Hnot).
    split; [| split; [| split; [| split]]].
    + apply NoDup_app; [exact Hnd | constructor; [intros [] | constructor] |].
      intros a Ha [<- | []]. contradiction.
    + split; [auto |]. intros _. apply in_or_app. right. left. reflexivity.
    + intros other Hother. rewrite in_app_iff. simpl.
      split; [intros [H | [H | []]]; [exact H | congruence] | auto].
    + reflexivity.
    + intros Hin. contradiction.
Qed.

Lemma toggleMemberFilter_flips_witness :
  NoDup ["alice"; "bob"; "mallory"] /\
  NoDup (memberFilter.toggleMemberFilter ["alice"; "bob"; "mallory"] "bob") /\
  memberFilter.toggleMemberFilter ["alice"; "bob"; "mallory"] "bob"
  = ["alice"; "mallory"].
Proof.
  assert (Hnd : NoDup ["alice"; "bob"; "mallory"]).
  { repeat (constructor; [simpl; intuition discriminate |]). constructor. }
  destruct (toggleMemberFilter_flips ["alice"; "bob"; "mallory"] "bob" Hnd)
    as (Hnd' & _).
  split; [exact Hnd |]. split; [exact Hnd' | reflexivity].
Defined.

(** X28.  Toggling twice.  Toggling an id that is not in the filter and
    toggling it again gives back the very list, duplicates or not. *)
Theorem toggleMemberFilter_twice :
  forall (memberIds : list string) (userId : string),
    ~ In userId memberIds ->
    memberFilter.toggleMemberFilter
      (memberFilter.toggleMemberFilter memberIds userId) userId
    = memberIds.
Proof.
  intros l x Hnot. rewrite (toggle_absent x l Hnot).
  destruct (toggle_present x (l ++ [x])%list) as (pre & post & Hl & Hpre & Htoggle).
  { apply in_or_app. right. left. reflexivity. }
  destruct (appended_is_last x l pre post Hnot Hl) as [-> ->].
  rewrite Htoggle. apply app_nil_r.
Qed.

Lemma toggleMemberFilter_twice_witness :
  ~ In "bob" ["alice"; "alice"] /\
  memberFilter.toggleMemberFilter
    (memberFilter.toggleMemberFilter ["alice"; "alice"] "bob") "bob"
  = ["alice"; "alice"].
Proof.
  assert (Hnot : ~ In "bob" ["alice"; "alice"]) by (simpl; intuition discriminate).
  split; [exact Hnot |].
  exact (toggleMemberFilter_twice ["alice"; "alice"] "bob" Hnot).
Defined.

(** ** webapp: avatar colour *)

Section AvatarColour.
Import avatar.

Lemma toInt32_range z : - 2 ^ 31 <= toInt32 z < 2 ^ 31.
Proof.
  unfold toInt32.
  pose proof (Z.mod_pos_bound (z + 2 ^ 31) (2 ^ 32) ltac:(lia)). lia.
Qed.

Lemma hashStep_bound h c :
  0 <= c < 65536 ->
  Z.abs (hashStep h c) <= Z.abs h + (2 ^ 31 + 65535).
Proof.
  intros Hc. unfold hashStep, shl5.
  pose proof (toInt32_range (toInt32 h * 32)). lia.
Qed.

Lemma fold_hash_bound l :
  forall h,
    Forall (fun c => 0 <= c < 65536) l ->
    Z.abs (fold_left hashStep l h)
    <= Z.abs h + Z.of_nat (length l) * (2 ^ 31 + 65535).
Proof.
  induction l as [| c l IH]; intros h Hall; cbn [fold_left length].
  - lia.
  - inversion Hall as [| ? ? Hc Hall']; subst.
    specialize (IH (hashStep h c) Hall').
    pose proof (hashStep_bound h c Hc). rewrite Nat2Z.inj_succ. lia.
Qed.

End AvatarColour.

(** X29.  The avatar colour is always one of the twelve, and the hash is
    computed exactly.  For a user id of at most 2^21 UTF-16 code units,
    the running hash after every prefix stays below 2^53 in absolute value
    (so the Number arithmetic of the loop loses nothing), and
    [getAvatarColor] returns an entry of the colour table, never
    [undefined]. *)
Theorem getAvatarColor_defined :
  forall userId : list Z,
    Forall (fun c => 0 <= c < 65536) userId ->
    Z.of_nat (length userId) <= 2 ^ 21 ->
    (forall pre post, userId = (pre ++ post)%list ->
                      Z.abs (avatar.hashOf pre) < 2 ^ 53) /\
    (exists color, avatar.getAvatarColor userId = Some color /\
                   In color avatar.colors).
Proof.
  intros userId Hunits Hlen. split.
  - intros pre post ->. rewrite Forall_app in Hunits. destruct Hunits as [Hpre _].
    rewrite length_app, Nat2Z.inj_add in Hlen.
    pose proof (fold_hash_bound pre 0 Hpre) as Hbound. unfold avatar.hashOf.
    change (Z.abs 0) with 0 in Hbound.
    assert (Z.of_nat (length pre) * (2 ^ 31 + 65535) <= 2 ^ 21 * (2 ^ 31 + 65535))
      by (apply Z.mul_le_mono_nonneg_r; lia).
    lia.
  - unfold avatar.getAvatarColor.
    change (Z.of_nat (length avatar.colors)) with 12.
    pose proof (Z.mod_pos_bound (Z.abs (avatar.hashOf userId)) 12 ltac:(lia)) as Hidx.
    destruct (nth_error avatar.colors
                (Z.to_nat (Z.abs (avatar.hashOf userId) mod 12))) as [color |] eqn:Hnth.
    + exists color. split; [reflexivity |]. eapply nth_error_In, Hnth.
    + exfalso. apply nth_error_None in Hnth.
      change (length avatar.colors) with 12%nat in Hnth. lia.
Qed.

Lemma getAvatarColor_defined_witness :
  Forall (fun c => 0 <= c < 65536) [98; 111; 98] /\
  avatar.hashOf [98; 111; 98] = 97717 /\
  exists color, avatar.getAvatarColor [98; 111; 98] = Some color /\
                In color avatar.colors.
Proof.
  assert (Hunits : Forall (fun c => 0 <= c < 65536) [98; 111; 98])
    by (repeat constructor; lia).
  destruct (getAvatarColor_defined [98; 111; 98] Hunits) as [_ Hcolor].
  - simpl. lia.
  - split; [exact Hunits |]. split; [reflexivity | exact Hcolor].
Defined.
